(** * Bullet Train API: feature-state views

    A shallow embedding of [src/features/views.py] (the administrative
    [FeatureStateViewSet] and the SDK endpoint [SDKFeatureStates]) over an
    explicit relational store, and the properties of the specification
    stated and settled against it.

    The views are stateful (they read and write database tables through the
    ORM) and fallible (ORM look-ups raise).  A view is therefore a function
    from a store to a new store and an outcome, the outcome being either a
    returned value or a raised Python exception. *)

From Stdlib Require Import ZArith List String Ascii Bool Lia.
Import ListNotations.

Local Open Scope string_scope.
Local Open Scope list_scope.
Local Open Scope Z_scope.

(** ** Rows of the store *)

(** Modelled from the spec: the model classes [Environment] and [Identity]
    (environments/models.py) and [Feature], [FeatureState] and
    [FeatureStateValue] (features/models.py) are not part of the sources at
    hand; the records follow section 3 of the specification.  Foreign keys are
    held as the primary key of the row they point to. *)
Record Environment := mkEnvironment {
  environment_id : Z;
  api_key : string;
  environment_project : Z
}.

Record Feature := mkFeature {
  feature_id : Z;
  feature_name : string;
  feature_project : Z
}.

Record Identity := mkIdentity {
  identity_id : Z;
  identity_identifier : string;
  identity_environment : Z
}.

(** [fs_identity = None] is the environment-level default. *)
Record FeatureState := mkFeatureState {
  fs_id : Z;
  fs_feature : Z;
  fs_environment : Z;
  fs_identity : option Z;
  fs_enabled : bool
}.

Inductive ValueType := NONE | INTEGER | STRING | BOOLEAN.

Record FeatureStateValue := mkFeatureStateValue {
  fsv_id : Z;
  fsv_feature_state : Z;
  fsv_type : ValueType;
  fsv_boolean_value : option bool;
  fsv_integer_value : option Z;
  fsv_string_value : option string
}.

(** The tables, each in primary-key order of insertion. *)
Record Store := mkStore {
  environments : list Environment;
  features : list Feature;
  identities : list Identity;
  feature_states : list FeatureState;
  feature_state_values : list FeatureStateValue
}.

(** ** Exceptions and outcomes *)

Inductive Model :=
  EnvironmentModel | FeatureModel | IdentityModel
| FeatureStateModel | FeatureStateValueModel.

Inductive Exn :=
| DoesNotExist (m : Model)
| MultipleObjectsReturned (m : Model)
| Http404
| ValidationError
| AttributeError
| TypeError
| ValueError
| IntegrityError.

Inductive Outcome (A : Type) :=
| Return (a : A)
| Raise (e : Exn).
Arguments Return {A} a.
Arguments Raise {A} e.

(** A view: store in, store and outcome out.  Writes made before an
    exception is raised stay in the store (no transaction is opened by the
    views). *)
Definition M (A : Type) := Store -> Store * Outcome A.

(** ** The ORM calls the views make *)

(** [Model.objects.get(...)] over the rows matching the keyword filter. *)
Definition objects_get {A} (m : Model) (rows : list A) : Outcome A :=
  match rows with
  | [] => Raise (DoesNotExist m)
  | [row] => Return row
  | _ :: _ :: _ => Raise (MultipleObjectsReturned m)
  end.

(** [rest_framework.generics.get_object_or_404]: [DoesNotExist] becomes
    [Http404]. *)
Definition get_object_or_404 {A} (m : Model) (rows : list A) : Outcome A :=
  match objects_get m rows with
  | Raise (DoesNotExist _) => Raise Http404
  | r => r
  end.

Definition option_Z_eqb (a b : option Z) : bool :=
  match a, b with
  | None, None => true
  | Some x, Some y => x =? y
  | _, _ => false
  end.

(** ASCII case folding, for the [name__iexact] look-up. *)
Definition lower_ascii (c : ascii) : ascii :=
  let n := nat_of_ascii c in
  if andb (Nat.leb 65 n) (Nat.leb n 90) then ascii_of_nat (n + 32) else c.

Fixpoint lower (s : string) : string :=
  match s with
  | EmptyString => EmptyString
  | String c s' => String (lower_ascii c) (lower s')
  end.

Definition iexact (a b : string) : bool := String.eqb (lower a) (lower b).

(** [Environment.objects.filter(api_key=key)] *)
Definition environments_by_key (st : Store) (key : string) : list Environment :=
  filter (fun e => String.eqb (api_key e) key) (environments st).

(** [Identity.objects.filter(identifier=identifier, environment=environment)] *)
Definition identities_by (st : Store) (identifier : string) (environment : Environment)
  : list Identity :=
  filter (fun i => andb (String.eqb (identity_identifier i) identifier)
                        (identity_environment i =? environment_id environment))
         (identities st).

(** [Feature.objects.filter(name__iexact=name, project=project)] *)
Definition features_by_name (st : Store) (name : string) (project : Z) : list Feature :=
  filter (fun f => andb (iexact (feature_name f) name) (feature_project f =? project))
         (features st).

(** [environment.project.features.all()] *)
Definition project_features (st : Store) (project : Z) : list Feature :=
  filter (fun f => feature_project f =? project) (features st).

(** [FeatureState.objects.filter(environment=environment, identity=identity)] *)
Definition feature_states_of (st : Store) (environment : Z) (ident : option Z)
  : list FeatureState :=
  filter (fun fs => andb (fs_environment fs =? environment)
                         (option_Z_eqb (fs_identity fs) ident))
         (feature_states st).

(** [FeatureState.objects.filter(identity=identity, feature=feature,
    environment=environment)] *)
Definition feature_states_by (st : Store) (environment feature : Z) (ident : option Z)
  : list FeatureState :=
  filter (fun fs => andb (fs_environment fs =? environment)
                   (andb (fs_feature fs =? feature)
                         (option_Z_eqb (fs_identity fs) ident)))
         (feature_states st).

(** The primary key a table hands to its next row. *)
Definition next_id (ids : list Z) : Z := 1 + fold_right Z.max 0 ids.

(** [Identity.objects.create(identifier=identifier, environment=environment)] *)
Definition Identity_objects_create (identifier : string) (environment : Environment)
  : M Identity :=
  fun st =>
    let ident := mkIdentity (next_id (map identity_id (identities st)))
                               identifier (environment_id environment) in
    (mkStore (environments st) (features st) (identities st ++ [ident])
             (feature_states st) (feature_state_values st),
     Return ident).

(** Modelled from the spec: [Identity.get_all_feature_states]
    (environments/models.py) is not part of the sources at hand.  Section 4.1:
    it yields the identity-scoped states of (environment, identity) and the
    environment-level states of the environment for which no identity-scoped
    override of the same feature exists. *)
Definition get_all_feature_states (st : Store) (ident : Identity)
  : list FeatureState * list FeatureState :=
  let identity_flags :=
    feature_states_of st (identity_environment ident) (Some (identity_id ident)) in
  let environment_flags :=
    filter (fun fs => negb (existsb (fun o => fs_feature o =? fs_feature fs) identity_flags))
           (feature_states_of st (identity_environment ident) None) in
  (identity_flags, environment_flags).

(** ** Responses *)

Inductive SerializerClass :=
  FeatureStateSerializerBasic | FeatureStateSerializerFull | FeatureStateSerializerCreate.

(** What a view puts in a response.  The serializer classes are not part of
    the sources at hand, so a serialized payload is kept as the serializer
    class together with what it serialized: one instance, or a list
    ([many=True]). *)
Inductive Data :=
| detail (msg : string)
| errors (cls : Model)
| serialized (cls : SerializerClass) (instance : FeatureState)
| serialized_many (cls : SerializerClass) (items : list FeatureState)
| server_error.

Record Response := mkResponse { data : Data; status : Z }.

Definition HTTP_200_OK := 200.
Definition HTTP_201_CREATED := 201.
Definition HTTP_400_BAD_REQUEST := 400.
Definition HTTP_404_NOT_FOUND := 404.
Definition HTTP_500_INTERNAL_SERVER_ERROR := 500.

(** What the framework answers when a view raises
    ([APIView.handle_exception]): [Http404] is a 404, a validation error a
    400, and any other exception is not handled and ends as a server error. *)
Definition handle_exception (o : Outcome Response) : Response :=
  match o with
  | Return r => r
  | Raise Http404 => mkResponse (detail "Not found.") HTTP_404_NOT_FOUND
  | Raise ValidationError => mkResponse (errors FeatureStateModel) HTTP_400_BAD_REQUEST
  | Raise _ => mkResponse server_error HTTP_500_INTERNAL_SERVER_ERROR
  end.

(** ** SDKFeatureStates.get *)

Record SDKRequest := mkSDKRequest {
  META_HTTP_X_ENVIRONMENT_KEY : option string;
  GET_feature : option string
}.

(** Python truth of [identifier]: [None] and the empty string are false. *)
Definition truthy (identifier : option string) : option string :=
  match identifier with
  | Some EmptyString => None
  | other => other
  end.

(** What [self.get_serializer(...)] is handed in the SDK view: a
    FeatureState, or the query set of a [filter]. *)
Inductive Instance :=
| a_feature_state (feature_state : FeatureState)
| a_queryset (queryset : list FeatureState).

(** Modelled from the spec: the serializer classes (features/serializers.py)
    are not part of the sources at hand.  Section 4.2: a serializer built
    without [many=True] turns one FeatureState into a single object.  Its
    [.data] reads the fields of section 3 (the feature, the enabled flag) off
    the object it was built on; a query set is not a FeatureState and has
    none of them, whatever rows it holds, and the read raises
    [AttributeError]. *)
Definition serializer_data (cls : SerializerClass) (instance : Instance) : Outcome Data :=
  match instance with
  | a_feature_state feature_state => Return (serialized cls feature_state)
  | a_queryset _ => Raise AttributeError
  end.

(** [Response(serializer.data, status=status)] *)
Definition respond (serializer_data : Outcome Data) (status : Z) : Outcome Response :=
  match serializer_data with
  | Return data => Return (mkResponse data status)
  | Raise e => Raise e
  end.

Module SDKFeatureStates.

Definition get_serializer := FeatureStateSerializerFull.

(** Lines 192-195: fetch the identity, create it when it does not exist. *)
Definition get_or_create_identity (identifier : string) (environment : Environment)
  : M Identity :=
  fun st =>
    match objects_get IdentityModel (identities_by st identifier environment) with
    | Return ident => (st, Return ident)
    | Raise (DoesNotExist _) => Identity_objects_create identifier environment st
    | Raise e => (st, Raise e)
    end.

(** Lines 197-216: identity and feature name given. *)
Definition get_identity_feature (environment : Environment) (ident : Identity)
           (name : string) (st : Store) : Outcome Response :=
  match objects_get FeatureModel
          (features_by_name st name (environment_project environment)) with
  | Raise (DoesNotExist _) =>
      Return (mkResponse (detail "Given feature not found") HTTP_404_NOT_FOUND)
  | Raise e => Raise e
  | Return feature =>
      match objects_get FeatureStateModel
              (feature_states_by st (environment_id environment) (feature_id feature)
                                 (Some (identity_id ident))) with
      | Return feature_state =>
          respond (serializer_data get_serializer (a_feature_state feature_state))
                  HTTP_200_OK
      | Raise (DoesNotExist _) =>
          match objects_get FeatureStateModel
                  (feature_states_by st (environment_id environment)
                                     (feature_id feature) None) with
          | Return feature_state =>
              respond (serializer_data get_serializer (a_feature_state feature_state))
                      HTTP_200_OK
          | Raise e => Raise e
          end
      | Raise e => Raise e
      end
  end.

(** Lines 226-244: no identifier. *)
Definition get_environment_only (environment : Environment) (feature : option string)
           (st : Store) : Outcome Response :=
  match feature with
  | Some name =>
      match objects_get FeatureModel
              (features_by_name st name (environment_project environment)) with
      | Raise (DoesNotExist _) =>
          Return (mkResponse (detail "Given feature not found") HTTP_404_NOT_FOUND)
      | Raise e => Raise e
      | Return feature =>
          let environment_flag :=
            feature_states_by st (environment_id environment) (feature_id feature) None in
          (* the query set, handed over without [many=True] *)
          respond (serializer_data get_serializer (a_queryset environment_flag))
                  HTTP_200_OK
      end
  | None =>
      let environment_flags := feature_states_of st (environment_id environment) None in
      Return (mkResponse (serialized_many get_serializer environment_flags) HTTP_200_OK)
  end.

Definition get (request : SDKRequest) (identifier : option string) : M Response :=
  fun st =>
    match META_HTTP_X_ENVIRONMENT_KEY request with
    | None =>
        (st, Return (mkResponse (detail "Environment Key header not provided")
                                HTTP_400_BAD_REQUEST))
    | Some key =>
        match get_object_or_404 EnvironmentModel (environments_by_key st key) with
        | Raise e => (st, Raise e)
        | Return environment =>
            match truthy identifier with
            | Some identifier =>
                match get_or_create_identity identifier environment st with
                | (st', Raise e) => (st', Raise e)
                | (st', Return ident) =>
                    match GET_feature request with
                    | Some name =>
                        (st', get_identity_feature environment ident name st')
                    | None =>
                        let '(identity_flags, environment_flags) :=
                          get_all_feature_states st' ident in
                        (st', Return (mkResponse
                                        (serialized_many get_serializer
                                           (environment_flags ++ identity_flags))
                                        HTTP_200_OK))
                    end
                end
            | None => (st, get_environment_only environment (GET_feature request) st)
            end
        end
    end.

End SDKFeatureStates.

(** ** Request payloads *)

(** A parsed JSON request body: [request.data] is a Python dict from keys to
    JSON values.  Numbers are integers, and a string is the sequence of its
    code points. *)
#[warnings="-register-all"]
Inductive JValue :=
| JNull
| JBool (b : bool)
| JInt (z : Z)
| JStr (s : string)
| JList (items : list JValue).

Definition Dict := list (string * JValue).

(** [data.get(key)] *)
Fixpoint dict_get (key : string) (d : Dict) : option JValue :=
  match d with
  | [] => None
  | (k, v) :: d' => if String.eqb k key then Some v else dict_get key d'
  end.

(** [data[key] = value] *)
Fixpoint dict_set (key : string) (value : JValue) (d : Dict) : Dict :=
  match d with
  | [] => [(key, value)]
  | (k, v) :: d' =>
      if String.eqb k key then (k, value) :: d' else (k, v) :: dict_set key value d'
  end.

Definition digit_of (c : ascii) : option Z :=
  let n := nat_of_ascii c in
  if andb (Nat.leb 48 n) (Nat.leb n 57) then Some (Z.of_nat (n - 48)) else None.

(** The characters [int] strips from both ends of a string: tab to carriage
    return, the blank, and the two blanks of Latin-1 (next line, no-break
    space).  The separators 28 to 31 are not among them. *)
Definition is_space (c : ascii) : bool :=
  let n := nat_of_ascii c in
  orb (andb (Nat.leb 9 n) (Nat.leb n 13))
      (orb (Nat.eqb n 32) (orb (Nat.eqb n 133) (Nat.eqb n 160))).

Fixpoint lstrip (s : string) : string :=
  match s with
  | String c s' => if is_space c then lstrip s' else s
  | EmptyString => s
  end.

Fixpoint all_space (s : string) : bool :=
  match s with
  | EmptyString => true
  | String c s' => andb (is_space c) (all_space s')
  end.

(** The rest of a numeral after a digit: more digits, each possibly after a
    single underscore, then blanks to the end.  The value, and the number of
    digits read. *)
Fixpoint after_digit (acc : Z) (count : Z) (s : string) : option (Z * Z) :=
  match s with
  | EmptyString => Some (acc, count)
  | String c s' =>
      match digit_of c with
      | Some d => after_digit (10 * acc + d) (count + 1) s'
      | None =>
          if Ascii.eqb c "_" then
            match s' with
            | String c' s'' =>
                match digit_of c' with
                | Some d => after_digit (10 * acc + d) (count + 1) s''
                | None => None
                end
            | EmptyString => None
            end
          else if all_space s then Some (acc, count) else None
      end
  end.

(** [sys.get_int_max_str_digits()], as the interpreter sets it. *)
Definition int_max_str_digits := 4300.

(** Python's [int(s)] on a string, in base 10: blanks around, an optional
    sign, digits with single underscores between them, and no more digits
    than the interpreter converts.  A character of a string is its code
    point, which the [ascii] of the model bounds by 255; no decimal digit
    other than 0 to 9 lies there. *)
Definition int_of_str (s : string) : option Z :=
  let s := lstrip s in
  let '(negative, s) :=
    match s with
    | String "-" s' => (true, s')
    | String "+" s' => (false, s')
    | _ => (false, s)
    end in
  match s with
  | String c s' =>
      match digit_of c with
      | Some d =>
          match after_digit d 1 s' with
          | Some (z, count) =>
              if count <=? int_max_str_digits
              then Some (if negative then - z else z)
              else None
          | None => None
          end
      | None => None
      end
  | EmptyString => None
  end.

(** Python's [int(value)] on a JSON value: numbers and booleans convert, a
    string converts when it is a numeral ([ValueError] otherwise), [None] and
    lists are a [TypeError]. *)
Definition py_int (value : JValue) : Outcome Z :=
  match value with
  | JInt z => Return z
  | JBool b => Return (if b then 1 else 0)
  | JStr s => match int_of_str s with Some z => Return z | None => Raise ValueError end
  | JNull | JList _ => Raise TypeError
  end.

(** The URL keyword arguments of the nested routes. *)
Record Kwargs := mkKwargs {
  kwargs_environment_api_key : string;
  kwargs_identity_identifier : option string;
  kwargs_pk : Z
}.

(** ** The serializers *)

(** The fields [FeatureStateSerializerBasic] found in a payload. *)
Record Validated := mkValidated {
  validated_feature : option Z;
  validated_environment : option Z;
  validated_identity : option (option Z);
  validated_enabled : option bool
}.

(** A primary-key field: the value names an existing row. *)
Definition related_field (ids : list Z) (value : JValue) : option Z :=
  match value with
  | JInt z => if existsb (Z.eqb z) ids then Some z else None
  | JStr s =>
      match int_of_str s with
      | Some z => if existsb (Z.eqb z) ids then Some z else None
      | None => None
      end
  | _ => None
  end.

(** One field of a payload: [None] when the field does not validate,
    [Some None] when it is left out and may be, [Some (Some x)] when it is
    there and valid. *)
Definition run_field {A} (required : bool) (field : JValue -> option A)
           (value : option JValue) : option (option A) :=
  match value with
  | None => if required then None else Some None
  | Some v => option_map Some (field v)
  end.

Definition same_tuple (feature environment : Z) (ident : option Z) (fs : FeatureState)
  : bool :=
  andb (fs_environment fs =? environment)
       (andb (fs_feature fs =? feature) (option_Z_eqb (fs_identity fs) ident)).

Definition is_instance (instance : option FeatureState) (fs : FeatureState) : bool :=
  match instance with
  | Some i => fs_id fs =? fs_id i
  | None => false
  end.

(** The row a validated payload stands for: the payload's fields over those
    of the instance under update, or over the model's defaults (no identity,
    not enabled) on creation. *)
Definition merged (instance : option FeatureState) (v : Validated)
  : option (Z * Z * option Z * bool) :=
  let pick {A} (new : option A) (old : option A) : option A :=
    match new with Some x => Some x | None => old end in
  match pick (validated_feature v) (option_map fs_feature instance),
        pick (validated_environment v) (option_map fs_environment instance) with
  | Some feature, Some environment =>
      Some (feature, environment,
            match validated_identity v with
            | Some i => i
            | None => match instance with Some i => fs_identity i | None => None end
            end,
            match validated_enabled v with
            | Some b => b
            | None => match instance with Some i => fs_enabled i | None => false end
            end)
  | _, _ => None
  end.

(** Modelled from the spec: [FeatureStateSerializerBasic]
    (features/serializers.py) is not part of the sources at hand.  Section 7:
    a payload fails validation on a missing required field, a malformed value
    or a wrong type.  With [partial] no field is required.  The result is the
    row to be written, [None] when the payload is not valid.  The uniqueness
    constraint is not the serializer's: sections 5 and 6 place it in the
    store. *)
Definition is_valid (st : Store) (instance : option FeatureState) (data : Dict)
           (partial : bool) : option (Z * Z * option Z * bool) :=
  let required := negb partial in
  match run_field required (related_field (map feature_id (features st)))
                  (dict_get "feature" data),
        run_field required (related_field (map environment_id (environments st)))
                  (dict_get "environment" data),
        run_field false
                  (fun v => match v with
                            | JNull => Some None
                            | _ => option_map Some
                                     (related_field (map identity_id (identities st)) v)
                            end)
                  (dict_get "identity" data),
        run_field false (fun v => match v with JBool b => Some b | _ => None end)
                  (dict_get "enabled" data) with
  | Some feature, Some environment, Some ident, Some enabled =>
      merged instance (mkValidated feature environment ident enabled)
  | _, _, _, _ => None
  end.

(** Modelled from the spec: the uniqueness constraint of the store (sections
    3, 5 and 6), on (environment, feature, identity), identity = none
    included.  A write would violate it when a row other than the one being
    written has the tuple. *)
Definition violates_unique (instance : option FeatureState)
           (row : Z * Z * option Z * bool) (st : Store) : bool :=
  let '(feature, environment, ident, _) := row in
  existsb (fun fs => andb (same_tuple feature environment ident fs)
                          (negb (is_instance instance fs)))
          (feature_states st).

(** Modelled from the spec: the rows a create writes.  Section 3: a
    FeatureState has an associated FeatureStateValue, which it owns; the new
    row comes with its (still untyped) value row. *)
Definition insert_row (row : Z * Z * option Z * bool) : Store -> Store * FeatureState :=
  fun st =>
    let '(feature, environment, ident, enabled) := row in
    let feature_state :=
      mkFeatureState (next_id (map fs_id (feature_states st)))
                     feature environment ident enabled in
    let feature_state_value :=
      mkFeatureStateValue (next_id (map fsv_id (feature_state_values st)))
                          (fs_id feature_state) NONE None None None in
    (mkStore (environments st) (features st) (identities st)
             (feature_states st ++ [feature_state])
             (feature_state_values st ++ [feature_state_value]),
     feature_state).

(** Modelled from the spec: [serializer.save()] on creation.  Sections 5 and
    6: the store refuses a row whose tuple is taken; the refusal is the
    [IntegrityError] of the database, and nothing is written. *)
Definition save_new (row : Z * Z * option Z * bool) : M FeatureState :=
  fun st =>
    if violates_unique None row st then (st, Raise IntegrityError)
    else let '(st', feature_state) := insert_row row st in
         (st', Return feature_state).

(** Modelled from the spec: the row of the instance, rewritten in place. *)
Definition update_row (instance : FeatureState) (row : Z * Z * option Z * bool)
  : Store -> Store * FeatureState :=
  fun st =>
    let '(feature, environment, ident, enabled) := row in
    let feature_state :=
      mkFeatureState (fs_id instance) feature environment ident enabled in
    (mkStore (environments st) (features st) (identities st)
             (map (fun fs => if fs_id fs =? fs_id instance then feature_state else fs)
                  (feature_states st))
             (feature_state_values st),
     feature_state).

(** Modelled from the spec: [serializer.save()] on update ([perform_update]):
    the row of the instance is rewritten, unless the store refuses the new
    tuple because another row has it. *)
Definition save_instance (instance : FeatureState) (row : Z * Z * option Z * bool)
  : M FeatureState :=
  fun st =>
    if violates_unique (Some instance) row st then (st, Raise IntegrityError)
    else let '(st', feature_state) := update_row instance row st in
         (st', Return feature_state).

(** What [generate_feature_state_value_data] hands to the value serializer. *)
Record FeatureStateValueData := mkFeatureStateValueData {
  data_type : option ValueType;
  data_feature_state : Z;
  data_value : JValue
}.

(** Modelled from the spec: [FeatureState.generate_feature_state_value_data]
    (features/models.py) is not part of the sources at hand.  Sections 3 and
    4.3: the payload is parsed by type, one of none, string, integer and
    boolean; a value of no supported type gets no type tag. *)
Definition generate_feature_state_value_data (feature_state : FeatureState)
           (value : JValue) : FeatureStateValueData :=
  mkFeatureStateValueData
    match value with
    | JNull => Some NONE
    | JBool _ => Some BOOLEAN
    | JInt _ => Some INTEGER
    | JStr _ => Some STRING
    | JList _ => None
    end
    (fs_id feature_state) value.

(** Modelled from the spec: [FeatureStateValueSerializer]
    (features/serializers.py) is not part of the sources at hand.  The payload
    is valid when it carries a type tag; saving assigns the tag and the value
    field the tag makes authoritative to the instance, in place. *)
Definition value_is_valid (d : FeatureStateValueData) : bool :=
  match data_type d with Some _ => true | None => false end.

Definition assign_value (instance : FeatureStateValue) (d : FeatureStateValueData)
  : FeatureStateValue :=
  match data_value d with
  | JNull =>
      mkFeatureStateValue (fsv_id instance) (fsv_feature_state instance) NONE
        (fsv_boolean_value instance) (fsv_integer_value instance) (fsv_string_value instance)
  | JBool b =>
      mkFeatureStateValue (fsv_id instance) (fsv_feature_state instance) BOOLEAN
        (Some b) (fsv_integer_value instance) (fsv_string_value instance)
  | JInt z =>
      mkFeatureStateValue (fsv_id instance) (fsv_feature_state instance) INTEGER
        (fsv_boolean_value instance) (Some z) (fsv_string_value instance)
  | JStr s =>
      mkFeatureStateValue (fsv_id instance) (fsv_feature_state instance) STRING
        (fsv_boolean_value instance) (fsv_integer_value instance) (Some s)
  | JList _ => instance
  end.

Definition value_save (instance : FeatureStateValue) (d : FeatureStateValueData)
  : Store -> Store * FeatureStateValue :=
  fun st =>
    let feature_state_value := assign_value instance d in
    (mkStore (environments st) (features st) (identities st) (feature_states st)
             (map (fun v => if fsv_id v =? fsv_id instance then feature_state_value else v)
                  (feature_state_values st)),
     feature_state_value).

(** [feature_state.feature_state_value]: the value row that points to the
    feature state. *)
Definition feature_state_value_of (st : Store) (feature_state : FeatureState)
  : Outcome FeatureStateValue :=
  objects_get FeatureStateValueModel
    (filter (fun v => fsv_feature_state v =? fs_id feature_state)
            (feature_state_values st)).

(** ** FeatureStateViewSet *)

(** What [update_feature_state_value] returns: the saved value, or, when the
    payload is not valid, a response object. *)
Inductive ValueOrResponse :=
| a_value (feature_state_value : FeatureStateValue)
| a_response (response : Response).

Module FeatureStateViewSet.

(** Lines 62-67. *)
Definition get_environment_from_request (kwargs : Kwargs) (st : Store)
  : Outcome Environment :=
  objects_get EnvironmentModel (environments_by_key st (kwargs_environment_api_key kwargs)).

(** Lines 69-75; [self.kwargs['identity_identifier']] is read only where
    the caller has found it to be true. *)
Definition get_identity_from_request (identifier : string) (environment : Environment)
           (st : Store) : Outcome Identity :=
  objects_get IdentityModel (identities_by st identifier environment).

(** Lines 47-60. *)
Definition get_queryset (kwargs : Kwargs) (st : Store) : Outcome (list FeatureState) :=
  match objects_get EnvironmentModel
          (environments_by_key st (kwargs_environment_api_key kwargs)) with
  | Raise e => Raise e
  | Return environment =>
      match truthy (kwargs_identity_identifier kwargs) with
      | Some identifier =>
          match objects_get IdentityModel (identities_by st identifier environment) with
          | Raise e => Raise e
          | Return ident =>
              Return (feature_states_of st (environment_id environment)
                                        (Some (identity_id ident)))
          end
      | None => Return (feature_states_of st (environment_id environment) None)
      end
  end.

(** [GenericAPIView.get_object]: the row of the query set with the primary
    key of the URL, or [Http404]. *)
Definition get_object (kwargs : Kwargs) (st : Store) : Outcome FeatureState :=
  match get_queryset kwargs st with
  | Raise e => Raise e
  | Return queryset =>
      get_object_or_404 FeatureStateModel
        (filter (fun fs => fs_id fs =? kwargs_pk kwargs) queryset)
  end.

(** Lines 152-166. *)
Definition update_feature_state_value (instance : FeatureStateValue) (value : JValue)
           (feature_state : FeatureState) : Store -> Store * ValueOrResponse :=
  fun st =>
    let feature_state_value_dict :=
      generate_feature_state_value_data feature_state value in
    if value_is_valid feature_state_value_dict then
      let '(st', feature_state_value) := value_save instance feature_state_value_dict st in
      (st', a_value feature_state_value)
    else
      (st, a_response (mkResponse (errors FeatureStateValueModel) HTTP_400_BAD_REQUEST)).

(** Lines 95-97 of [create]: the identity of the URL, when there is one,
    goes into the payload. *)
Definition add_identity (kwargs : Kwargs) (environment : Environment) (data : Dict)
           (st : Store) : Outcome Dict :=
  match truthy (kwargs_identity_identifier kwargs) with
  | Some identifier =>
      match get_identity_from_request identifier environment st with
      | Raise e => Raise e
      | Return ident => Return (dict_set "identity" (JInt (identity_id ident)) data)
      end
  | None => Return data
  end.

(** Lines 99-112 of [create].  Nothing is caught around [save]. *)
Definition create_validated (data : Dict) : M Response :=
  fun st =>
    match is_valid st None data false with
    | Some row =>
        match save_new row st with
        | (st1, Raise e) => (st1, Raise e)
        | (st1, Return feature_state) =>
            match dict_get "feature_state_value" data with
            | Some value =>
                match feature_state_value_of st1 feature_state with
                | Raise e => (st1, Raise e)
                | Return instance =>
                    (* the returned value, or response, is dropped *)
                    let '(st2, _) :=
                      update_feature_state_value instance value feature_state st1 in
                    (st2, Return (mkResponse
                                    (serialized FeatureStateSerializerBasic feature_state)
                                    HTTP_201_CREATED))
                end
            | None =>
                (st1, Return (mkResponse
                                (serialized FeatureStateSerializerBasic feature_state)
                                HTTP_201_CREATED))
            end
        end
    | None =>
        (st, Return (mkResponse (detail "Couldn't create feature state.")
                                HTTP_400_BAD_REQUEST))
    end.

(** Lines 77-112. *)
Definition create (kwargs : Kwargs) (request_data : Dict) : M Response :=
  fun st =>
    match get_environment_from_request kwargs st with
    | Raise e => (st, Raise e)
    | Return environment =>
        let data :=
          dict_set "environment" (JInt (environment_id environment)) request_data in
        match dict_get "feature" data with
        | None =>
            (st, Return (mkResponse (detail "Feature not provided") HTTP_400_BAD_REQUEST))
        | Some feature =>
            match py_int feature with
            | Raise e => (st, Raise e)
            | Return feature_id' =>
                if negb (existsb (Z.eqb feature_id')
                           (map feature_id
                                (project_features st (environment_project environment))))
                then
                  (st, Return (mkResponse (detail "Feature does not exist in project")
                                          HTTP_400_BAD_REQUEST))
                else
                  match add_identity kwargs environment data st with
                  | Raise e => (st, Raise e)
                  | Return data => create_validated data st
                  end
            end
        end
    end.

(** Lines 124-131 of [update]: the value is written first, and its primary
    key put into the payload; a response object in its place has no [id]. *)
Definition update_value (feature_state_to_update : FeatureState)
           (feature_state_data : Dict) : M Dict :=
  fun st =>
    match dict_get "feature_state_value" feature_state_data with
    | Some value =>
        match feature_state_value_of st feature_state_to_update with
        | Raise e => (st, Raise e)
        | Return instance =>
            match update_feature_state_value instance value feature_state_to_update st with
            | (st', a_value feature_state_value) =>
                (st', Return (dict_set "feature_state_value"
                                       (JInt (fsv_id feature_state_value))
                                       feature_state_data))
            | (st', a_response _) => (st', Raise AttributeError)
            end
        end
    | None => (st, Return feature_state_data)
    end.

(** Lines 114-144.  The serializer is always built with [partial=True].
    The query set of [get_queryset] carries no prefetch cache, so the
    instance is not read again (lines 138-142). *)
Definition update (kwargs : Kwargs) (request_data : Dict) : M Response :=
  fun st =>
    match get_object kwargs st with
    | Raise e => (st, Raise e)
    | Return feature_state_to_update =>
        match update_value feature_state_to_update request_data st with
        | (st1, Raise e) => (st1, Raise e)
        | (st1, Return feature_state_data) =>
            match is_valid st1 (Some feature_state_to_update) feature_state_data true with
            | None => (st1, Raise ValidationError)
            | Some row =>
                match save_instance feature_state_to_update row st1 with
                | (st2, Raise e) => (st2, Raise e)
                | (st2, Return feature_state) =>
                    (st2, Return (mkResponse
                                    (serialized FeatureStateSerializerBasic feature_state)
                                    HTTP_200_OK))
                end
            end
        end
    end.

(** Lines 146-150. *)
Definition partial_update (kwargs : Kwargs) (request_data : Dict) : M Response :=
  update kwargs request_data.

End FeatureStateViewSet.

(** The routes of the view set: POST creates, PUT is a full update, PATCH a
    partial one. *)
Inductive Method := POST | PUT | PATCH.

Definition route (method : Method) (kwargs : Kwargs) (request_data : Dict) : M Response :=
  match method with
  | POST => FeatureStateViewSet.create kwargs request_data
  | PUT => FeatureStateViewSet.update kwargs request_data
  | PATCH => FeatureStateViewSet.partial_update kwargs request_data
  end.

(** A request to the service, and the store and response it leaves. *)
Inductive Request :=
| Admin (method : Method) (kwargs : Kwargs) (request_data : Dict)
| SDK (request : SDKRequest) (identifier : option string).

Definition handle (r : Request) (st : Store) : Store * Response :=
  let '(st', o) :=
    match r with
    | Admin method kwargs request_data => route method kwargs request_data st
    | SDK request identifier => SDKFeatureStates.get request identifier st
    end in
  (st', handle_exception o).

(** ** The uniqueness constraints of the data model (section 3) *)

Definition identity_key (i : Identity) : string * Z :=
  (identity_identifier i, identity_environment i).

Definition fs_key (fs : FeatureState) : Z * Z * option Z :=
  (fs_environment fs, fs_feature fs, fs_identity fs).

(** An identifier is unique within its environment. *)
Definition unique_identities (st : Store) : Prop :=
  NoDup (map identity_key (identities st)).



(** At most one FeatureState per (environment, feature, identity), identity =
    none included; primary keys are unique. *)
Definition unique_feature_states (st : Store) : Prop :=
  NoDup (map fs_key (feature_states st)) /\ NoDup (map fs_id (feature_states st)).

(** Every identity a FeatureState points to is a row of the store. *)
Definition identities_exist (st : Store) : Prop :=
  forall fs i, In fs (feature_states st) -> fs_identity fs = Some i ->
               In i (map identity_id (identities st)).

(** Every value row belongs to a FeatureState of the store. *)
Definition values_owned (st : Store) : Prop :=
  forall v, In v (feature_state_values st) ->
            In (fsv_feature_state v) (map fs_id (feature_states st)).

(** The stores a sequence of requests leads to. *)
Inductive reachable (st0 : Store) : Store -> Prop :=
| reachable_start : reachable st0 st0
| reachable_request (st : Store) (r : Request) :
    reachable st0 st -> reachable st0 (fst (handle r st)).

(** ** A store to run the views on: the scenario of section 8 *)

Module Scenario.

Definition production := mkEnvironment 1 "abc123" 1.
Definition dark_mode := mkFeature 1 "dark_mode" 1.
Definition beta_banner := mkFeature 2 "beta_banner" 1.
Definition elsewhere := mkFeature 3 "elsewhere" 2.
Definition user42 := mkIdentity 1 "user42" 1.

Definition E := mkFeatureState 1 1 1 None false.
Definition I := mkFeatureState 2 1 1 (Some 1) true.

Definition store : Store :=
  mkStore [production] [dark_mode; beta_banner; elsewhere] [user42] [E; I]
          [mkFeatureStateValue 1 1 NONE None None None;
           mkFeatureStateValue 2 2 STRING None None (Some "blue")].

(** Before any feature state is recorded. *)
Definition bare : Store :=
  mkStore [production] [dark_mode; beta_banner; elsewhere] [user42] [] [].

Definition flags (feature : option string) : SDKRequest :=
  mkSDKRequest (Some "abc123") feature.

Definition nested (identifier : option string) (pk : Z) : Kwargs :=
  mkKwargs "abc123" identifier pk.

End Scenario.

(** ** What a response discloses *)

(** The rows a payload was serialized from. *)
Definition rows_of (d : Data) : list FeatureState :=
  match d with
  | serialized _ instance => [instance]
  | serialized_many _ items => items
  | detail _ | errors _ | server_error => []
  end.

(** One value row per FeatureState: primary keys are unique and no two value
    rows point to the same FeatureState. *)
Definition unique_value_rows (st : Store) : Prop :=
  NoDup (map fsv_id (feature_state_values st)) /\
  NoDup (map fsv_feature_state (feature_state_values st)).

(** Every FeatureState has a value row. *)
Definition every_state_has_a_value (st : Store) : Prop :=
  forall fs, In fs (feature_states st) ->
             In (fs_id fs) (map fsv_feature_state (feature_state_values st)).

(** ** api/urls.py *)

(** A [url(regex, ...)] of the file: every regex is a literal anchored at the
    start and open at the end, one of them followed by the group
    [(?P<identifier>\w+)]. *)
Inductive Pattern :=
| literal (text : string)
| literal_identifier (text : string).

Inductive Target :=
| include (urlconf : string)
| Identify_as_view
| SDKFeatureStates_as_view.

(** [\w] on an ASCII character (paths are taken to be ASCII). *)
Definition is_word (c : ascii) : bool :=
  let n := nat_of_ascii c in
  orb (andb (Nat.leb 48 n) (Nat.leb n 57))
      (orb (andb (Nat.leb 65 n) (Nat.leb n 90))
           (orb (andb (Nat.leb 97 n) (Nat.leb n 122)) (Nat.eqb n 95))).

(** The longest run of word characters a string starts with, and what
    follows it: the greedy [\w+]. *)
Fixpoint word_run (s : string) : string * string :=
  match s with
  | EmptyString => (EmptyString, EmptyString)
  | String c s' =>
      if is_word c then let '(w, rest) := word_run s' in (String c w, rest)
      else (EmptyString, s)
  end.

Fixpoint strip_prefix (text s : string) : option string :=
  match text, s with
  | EmptyString, _ => Some s
  | String a text', String b s' => if Ascii.eqb a b then strip_prefix text' s' else None
  | String _ _, EmptyString => None
  end.

(** A match of a pattern at the start of a path: the keyword argument it
    captures and the rest of the path. *)
Definition match_pattern (p : Pattern) (path : string) : option (option string * string) :=
  match p with
  | literal text =>
      match strip_prefix text path with
      | Some rest => Some (None, rest)
      | None => None
      end
  | literal_identifier text =>
      match strip_prefix text path with
      | Some rest =>
          match word_run rest with
          | (EmptyString, _) => None
          | (w, rest') => Some (Some w, rest')
          end
      | None => None
      end
  end.

(** Lines 8-21: the patterns under [^v1/], in their order. *)
Definition v1_patterns : list (Pattern * Target) :=
  [ (literal "organisations/", include "organisations.urls");
    (literal "projects/", include "projects.urls");
    (literal "environments/", include "environments.urls");
    (literal "users/", include "users.urls");
    (literal "auth/", include "rest_auth.urls");
    (literal "auth/register/", include "rest_auth.registration.urls");
    (literal "identify", Identify_as_view);
    (literal_identifier "flags/", SDKFeatureStates_as_view);
    (literal "flags/", SDKFeatureStates_as_view);
    (literal "docs/", include "docs.urls") ].

(** What the resolver does with a path: it hands the rest of the path to an
    included module (and goes on to the next pattern if that module has no
    match), or calls a view with the captured identifier. *)
Inductive Attempt :=
| hand_over (urlconf : string) (rest : string)
| call_Identify
| call_SDKFeatureStates (identifier : option string).

(** The attempts of the resolver, in order, down to the first view. *)
Fixpoint attempts (patterns : list (Pattern * Target)) (path : string) : list Attempt :=
  match patterns with
  | [] => []
  | (p, target) :: patterns' =>
      match match_pattern p path with
      | None => attempts patterns' path
      | Some (kwarg, rest) =>
          match target with
          | include urlconf => hand_over urlconf rest :: attempts patterns' path
          | Identify_as_view => [call_Identify]
          | SDKFeatureStates_as_view => [call_SDKFeatureStates kwarg]
          end
      end
  end.

(** Lines 6-23: [urlpatterns], on a path relative to this module. *)
Definition resolve (path : string) : list Attempt :=
  match strip_prefix "v1/" path with
  | Some rest => attempts v1_patterns rest
  | None => []
  end.

Fixpoint all_chars (p : ascii -> bool) (s : string) : bool :=
  match s with
  | EmptyString => true
  | String c s' => andb (p c) (all_chars p s')
  end.

(** A path of ASCII characters. *)
Definition ascii_only (s : string) : bool :=
  all_chars (fun c => Nat.ltb (nat_of_ascii c) 128) s.

(** The first character of a string, if any, is no word character. *)
Definition no_word_ahead (s : string) : bool :=
  match s with
  | EmptyString => true
  | String c _ => negb (is_word c)
  end.

(** ** users/models.py *)

Module Users.

(** What the managers and models of the file raise. *)
Inductive Failure :=
| ValueError_with (message : string)
| Organisation_DoesNotExist
| SMTPException
| IntegrityError.

Inductive Result (A : Type) :=
| Ok (a : A)
| Fail (f : Failure).
Arguments Ok {A} a.
Arguments Fail {A} f.

(** [extra_fields.setdefault(key, value)] *)
Definition setdefault (key : string) (value : JValue) (d : Dict) : Dict :=
  match dict_get key d with
  | Some _ => d
  | None => dict_set key value d
  end.

(** [extra_fields.get(key) is not True] *)
Definition is_not_True (value : option JValue) : bool :=
  match value with
  | Some (JBool true) => false
  | _ => true
  end.

Section UserManager.

(** The database and the user model are the framework's: [normalize_email]
    and what [_create_user] does with the model (build the user, set the
    password, save) are taken as given. *)
Variables (Database User : Type).
Variable normalize_email : string -> string.
Variable build_and_save :
  string -> option string -> Dict -> Database -> Database * Result User.

(** Lines 16-24.  [not email] holds of [None] and of the empty string. *)
Definition _create_user (email : option string) (password : option string)
           (extra_fields : Dict) : Database -> Database * Result User :=
  fun db =>
    match email with
    | None | Some EmptyString => (db, Fail (ValueError_with "The given email must be set"))
    | Some email => build_and_save (normalize_email email) password extra_fields db
    end.

(** Lines 26-30. *)
Definition create_user (email : option string) (password : option string)
           (extra_fields : Dict) : Database -> Database * Result User :=
  let extra_fields := setdefault "is_staff" (JBool false) extra_fields in
  let extra_fields := setdefault "is_superuser" (JBool false) extra_fields in
  _create_user email password extra_fields.

(** Lines 32-42. *)
Definition create_superuser (email : option string) (password : option string)
           (extra_fields : Dict) : Database -> Database * Result User :=
  fun db =>
    let extra_fields := setdefault "is_staff" (JBool true) extra_fields in
    let extra_fields := setdefault "is_superuser" (JBool true) extra_fields in
    if is_not_True (dict_get "is_staff" extra_fields) then
      (db, Fail (ValueError_with "Superuser must have is_staff=True."))
    else if is_not_True (dict_get "is_superuser" extra_fields) then
      (db, Fail (ValueError_with "Superuser must have is_superuser=True."))
    else _create_user email password extra_fields db.

End UserManager.

(** The [Organisation] of an invite (organisations/models.py is not part of
    the sources at hand): its primary key and the name the mail quotes. *)
Record Organisation := mkOrganisation {
  organisation_id : Z;
  organisation_name : string
}.

(** Lines 64-72; [date_created] is set by the clock and left out.  A new
    invite has no primary key yet. *)
Record Invite := mkInvite {
  invite_pk : option Z;
  invite_email : string;
  invite_hash : string;
  invite_organisation : Z;
  invite_frontend_base_url : string
}.

Record EmailMultiAlternatives := mkEmailMultiAlternatives {
  mail_subject : string;
  mail_body : string;
  mail_from_email : string;
  mail_to : list string;
  mail_alternatives : list (string * string)
}.

(** The tables, and the mails handed to the mail backend so far. *)
Record World := mkWorld {
  organisations : list Organisation;
  invites : list Invite;
  outbox : list EmailMultiAlternatives
}.

(** Lines 74-75; the hash is a string already. *)
Definition get_invite_uri (self : Invite) : string :=
  String.append (invite_frontend_base_url self) (invite_hash self).

Definition option_Z_same (a b : option Z) : bool :=
  match a, b with
  | Some x, Some y => x =? y
  | _, _ => false
  end.

(** The uniqueness constraints of lines 66 and 72: another row has the hash,
    or the email and the organisation, of the invite. *)
Definition clashes (self : Invite) (rows : list Invite) : bool :=
  existsb (fun r => andb (negb (option_Z_same (invite_pk r) (invite_pk self)))
                         (orb (String.eqb (invite_hash r) (invite_hash self))
                              (andb (String.eqb (invite_email r) (invite_email self))
                                    (invite_organisation r =? invite_organisation self))))
          rows.

(** [models.Model.save]: a row without primary key is inserted; one with a
    primary key rewrites the row of that key, or is inserted under it when
    there is none.  A clash with a uniqueness constraint raises. *)
Definition Model_save (self : Invite) (rows : list Invite) : Result (list Invite) :=
  if clashes self rows then Fail IntegrityError
  else
    match invite_pk self with
    | None =>
        let pk := next_id (flat_map (fun r => match invite_pk r with
                                              | Some k => [k]
                                              | None => []
                                              end) rows) in
        Ok (rows ++ [mkInvite (Some pk) (invite_email self) (invite_hash self)
                              (invite_organisation self)
                              (invite_frontend_base_url self)])
    | Some k =>
        if existsb (fun r => option_Z_same (invite_pk r) (Some k)) rows
        then Ok (map (fun r => if option_Z_same (invite_pk r) (Some k) then self else r)
                     rows)
        else Ok (rows ++ [self])
    end.

Section Invite.

(** The templates are not part of the sources at hand, and the mail backend
    is the deployment's: how a template renders a context, and whether the
    backend takes a mail it is given, are taken as given. *)
Variable render : string -> list (string * string) -> string.
Variable delivers : EmailMultiAlternatives -> bool.

(** Lines 83-98 of [send_invite_mail]: the message, for the organisation's
    name. *)
Definition invite_message (self : Invite) (org_name : string) : EmailMultiAlternatives :=
  let context := [("org_name", org_name); ("invite_url", get_invite_uri self)] in
  let subject := "You have been invited to join an organisation on Bullet Train" in
  let from_email := "noreply@bullettrain.com" in
  let to := invite_email self in
  let text_content := render "users/invite_to_org.txt" context in
  let html_content := render "users/invite_to_org.html" context in
  mkEmailMultiAlternatives subject text_content from_email [to]
                           [(html_content, "text/html")].

(** [EmailMessage.recipients]: the addresses of the message that are not
    empty (the message has no [cc] and no [bcc]). *)
Definition recipients (msg : EmailMultiAlternatives) : list string :=
  filter (fun email => negb (String.eqb email "")) (mail_to msg).

(** [msg.send()]: with no recipient the message goes nowhere and nothing is
    raised; otherwise the backend takes it, or raises. *)
Definition send (msg : EmailMultiAlternatives) : World -> World * Result unit :=
  fun w =>
    match recipients msg with
    | [] => (w, Ok tt)
    | _ :: _ =>
        if delivers msg then
          (mkWorld (organisations w) (invites w) (outbox w ++ [msg]), Ok tt)
        else (w, Fail SMTPException)
    end.

(** Lines 82-99. *)
Definition send_invite_mail (self : Invite) : World -> World * Result unit :=
  fun w =>
    match filter (fun o => organisation_id o =? invite_organisation self)
                 (organisations w) with
    | o :: _ => send (invite_message self (organisation_name o)) w
    | [] => (w, Fail Organisation_DoesNotExist)
    end.

(** Lines 77-80. *)
Definition save (self : Invite) : World -> World * Result unit :=
  fun w =>
    match send_invite_mail self w with
    | (w1, Fail f) => (w1, Fail f)
    | (w1, Ok _) =>
        match Model_save self (invites w1) with
        | Fail f => (w1, Fail f)
        | Ok rows => (mkWorld (organisations w1) rows (outbox w1), Ok tt)
        end
    end.

End Invite.

(** Hash, and email within an organisation, are unique. *)
Definition unique_invites (w : World) : Prop :=
  NoDup (map invite_hash (invites w)) /\
  NoDup (map (fun r => (invite_email r, invite_organisation r)) (invites w)).

End Users.

(** ** Lists filtered on a unique key *)

Section FilterUnique.

Context {A K : Type} (key : A -> K).

Lemma filter_all_false (p : A -> bool) (l : list A) :
  (forall a, In a l -> p a = false) -> filter p l = [].
Proof.
  induction l as [|a l IH]; intros H; simpl; [reflexivity|].
  rewrite (H a (or_introl eq_refl)). apply IH.
  intros b Hb. apply H. right. exact Hb.
Qed.

Lemma filter_unique (k : K) (p : A -> bool) (l : list A) :
  NoDup (map key l) ->
  (forall a, In a l -> p a = true -> key a = k) ->
  filter p l = [] \/ exists a, filter p l = [a].
Proof.
  induction l as [|a l IH]; intros Hnd Hk; simpl; [left; reflexivity|].
  inversion Hnd as [|? ? Hnotin Hnd']; subst.
  destruct (p a) eqn:Hpa.
  - right. exists a. f_equal. apply filter_all_false.
    intros b Hb. destruct (p b) eqn:Hpb; [|reflexivity].
    exfalso. apply Hnotin.
    rewrite (Hk a (or_introl eq_refl) Hpa).
    rewrite <- (Hk b (or_intror Hb) Hpb).
    apply in_map. exact Hb.
  - apply IH; [exact Hnd'|].
    intros b Hb. apply Hk. right. exact Hb.
Qed.

Lemma filter_unique_in (p : A -> bool) (l : list A) (a : A) :
  NoDup (map key l) ->
  In a l -> p a = true ->
  (forall b, In b l -> p b = true -> key b = key a) ->
  filter p l = [a].
Proof.
  intros Hnd Hin Hpa Hk.
  assert (Hf : In a (filter p l)) by (apply filter_In; split; assumption).
  destruct (filter_unique (key a) p l Hnd Hk) as [Hnil | [b Hb]].
  - rewrite Hnil in Hf. destruct Hf.
  - rewrite Hb in Hf. destruct Hf as [Hf | []]. subst b. exact Hb.
Qed.

End FilterUnique.

Lemma option_Z_eqb_eq (a b : option Z) : option_Z_eqb a b = true <-> a = b.
Proof.
  destruct a as [x|], b as [y|]; simpl; try (split; congruence).
  rewrite Z.eqb_eq. split; congruence.
Qed.

Lemma same_tuple_key (feature environment : Z) (ident : option Z) (fs : FeatureState) :
  same_tuple feature environment ident fs = true <->
  fs_key fs = (environment, feature, ident).
Proof.
  unfold same_tuple, fs_key.
  rewrite !andb_true_iff, !Z.eqb_eq, option_Z_eqb_eq.
  split; [intros (? & ? & ?); congruence | intros H; inversion H; auto].
Qed.

Lemma truthy_nonempty (identifier : string) :
  identifier <> "" -> truthy (Some identifier) = Some identifier.
Proof. destruct identifier; [congruence | reflexivity]. Qed.

Lemma truthy_some (identifier : option string) (s : string) :
  truthy identifier = Some s -> identifier = Some s /\ s <> "".
Proof.
  destruct identifier as [[|c i]|]; simpl; intros H; inversion H; subst.
  split; [reflexivity | discriminate].
Qed.

(** The look-up of an identity leaves the store as it is or adds the one
    identity it returns. *)
Lemma get_or_create_identity_store (identifier : string) (environment : Environment)
      (st : Store) :
  let '(st', o) := SDKFeatureStates.get_or_create_identity identifier environment st in
  st' = st \/
  (identities_by st identifier environment = [] /\
   o = Return (mkIdentity (next_id (map identity_id (identities st)))
                          identifier (environment_id environment)) /\
   st' = mkStore (environments st) (features st)
                 (identities st ++
                  [mkIdentity (next_id (map identity_id (identities st)))
                              identifier (environment_id environment)])
                 (feature_states st) (feature_state_values st)).
Proof.
  unfold SDKFeatureStates.get_or_create_identity.
  destruct (identities_by st identifier environment) as [|i [|j l]] eqn:Hids; simpl.
  - right. auto.
  - left. reflexivity.
  - left. reflexivity.
Qed.

(** ** The SDK look-up: errors *)

(** C6. An SDK look-up without the X-Environment-Key header is answered 400
    (a validation error: the store is not consulted and nothing is written);
    with the header but no environment of that key it is answered 404. *)
Theorem sdk_environment_key_errors (st : Store) (request : SDKRequest)
        (identifier : option string) :
  (META_HTTP_X_ENVIRONMENT_KEY request = None ->
   handle (SDK request identifier) st =
   (st, mkResponse (detail "Environment Key header not provided") HTTP_400_BAD_REQUEST))
  /\
  (forall key,
      META_HTTP_X_ENVIRONMENT_KEY request = Some key ->
      environments_by_key st key = [] ->
      handle (SDK request identifier) st =
      (st, mkResponse (detail "Not found.") HTTP_404_NOT_FOUND)).
Proof.
  split.
  - intros Hnone. unfold handle, SDKFeatureStates.get. rewrite Hnone. reflexivity.
  - intros key Hkey Hnil. unfold handle, SDKFeatureStates.get.
    rewrite Hkey. unfold get_object_or_404. rewrite Hnil. reflexivity.
Qed.

Lemma sdk_environment_key_errors_witness :
  handle (SDK (mkSDKRequest None (Some "dark_mode")) (Some "user42")) Scenario.store =
  (Scenario.store,
   mkResponse (detail "Environment Key header not provided") HTTP_400_BAD_REQUEST)
  /\
  handle (SDK (mkSDKRequest (Some "zzz999") None) None) Scenario.store =
  (Scenario.store, mkResponse (detail "Not found.") HTTP_404_NOT_FOUND).
Proof.
  split.
  - apply (proj1 (sdk_environment_key_errors Scenario.store
                    (mkSDKRequest None (Some "dark_mode")) (Some "user42"))).
    reflexivity.
  - apply (proj2 (sdk_environment_key_errors Scenario.store
                    (mkSDKRequest (Some "zzz999") None) None) "zzz999").
    + reflexivity.
    + reflexivity.
Defined.


Lemma identities_at_most_one (st : Store) (identifier : string)
      (environment : Environment) :
  unique_identities st ->
  identities_by st identifier environment = [] \/
  exists i, identities_by st identifier environment = [i].
Proof.
  intros Hu. unfold identities_by.
  apply (filter_unique identity_key (identifier, environment_id environment)); [exact Hu|].
  intros a _ Ha. apply andb_true_iff in Ha. destruct Ha as [Hs Hz].
  apply String.eqb_eq in Hs. apply Z.eqb_eq in Hz.
  unfold identity_key. congruence.
Qed.




(** C3. A look-up with an identifier and the name of a feature of the
    project, when neither an identity-level nor an environment-level state is
    recorded for the feature, should be answered 404.  It is not: the second
    [FeatureState.objects.get], made inside the handler of the first one's
    [DoesNotExist], raises [DoesNotExist] in its turn, which nothing catches;
    the request ends as a server error. *)
Theorem sdk_no_state_is_not_404 :
  SDKFeatureStates.get (Scenario.flags (Some "dark_mode")) (Some "user42") Scenario.bare =
  (Scenario.bare, Raise (DoesNotExist FeatureStateModel))
  /\
  status (snd (handle (SDK (Scenario.flags (Some "dark_mode")) (Some "user42"))
                      Scenario.bare)) = HTTP_500_INTERNAL_SERVER_ERROR.
Proof. split; reflexivity. Qed.

(** The same at every store: with the feature found and no state recorded at
    either level, the view raises. *)
Lemma get_identity_feature_no_state (st : Store) (environment : Environment)
      (ident : Identity) (name : string) (feature : Feature) :
  features_by_name st name (environment_project environment) = [feature] ->
  feature_states_by st (environment_id environment) (feature_id feature)
                    (Some (identity_id ident)) = [] ->
  feature_states_by st (environment_id environment) (feature_id feature) None = [] ->
  SDKFeatureStates.get_identity_feature environment ident name st =
  Raise (DoesNotExist FeatureStateModel).
Proof.
  intros Hf Hi He. unfold SDKFeatureStates.get_identity_feature.
  rewrite Hf. simpl. rewrite Hi. simpl. rewrite He. reflexivity.
Qed.

(** ** The SDK look-up: precedence *)

Lemma feature_states_by_unique (st : Store) (fs : FeatureState) :
  NoDup (map fs_key (feature_states st)) ->
  In fs (feature_states st) ->
  feature_states_by st (fs_environment fs) (fs_feature fs) (fs_identity fs) = [fs].
Proof.
  intros Hnd Hin. unfold feature_states_by.
  apply (filter_unique_in fs_key); [exact Hnd | exact Hin | |].
  - apply (same_tuple_key (fs_feature fs) (fs_environment fs) (fs_identity fs) fs).
    reflexivity.
  - intros b _ Hb.
    apply (same_tuple_key (fs_feature fs) (fs_environment fs) (fs_identity fs) b) in Hb.
    exact Hb.
Qed.

Lemma feature_states_by_none (st : Store) (environment feature : Z) (ident : option Z) :
  (forall fs, In fs (feature_states st) -> fs_key fs <> (environment, feature, ident)) ->
  feature_states_by st environment feature ident = [].
Proof.
  intros H. unfold feature_states_by. apply filter_all_false.
  intros fs Hin.
  destruct (same_tuple feature environment ident fs) eqn:Hs; [|exact Hs].
  apply same_tuple_key in Hs. exfalso. exact (H fs Hin Hs).
Qed.

Lemma features_by_name_ext (st' st : Store) (name : string) (project : Z) :
  features st' = features st ->
  features_by_name st' name project = features_by_name st name project.
Proof. intros H. unfold features_by_name. rewrite H. reflexivity. Qed.

Lemma feature_states_by_ext (st' st : Store) (environment feature : Z)
      (ident : option Z) :
  feature_states st' = feature_states st ->
  feature_states_by st' environment feature ident =
  feature_states_by st environment feature ident.
Proof. intros H. unfold feature_states_by. rewrite H. reflexivity. Qed.

Lemma get_identity_feature_ext (st' st : Store) (environment : Environment)
      (ident : Identity) (name : string) :
  features st' = features st ->
  feature_states st' = feature_states st ->
  SDKFeatureStates.get_identity_feature environment ident name st' =
  SDKFeatureStates.get_identity_feature environment ident name st.
Proof.
  intros Hf Hs.
  unfold SDKFeatureStates.get_identity_feature, features_by_name, feature_states_by.
  rewrite Hf, Hs. reflexivity.
Qed.

Lemma next_id_fresh (ids : list Z) (x : Z) : In x ids -> x < next_id ids.
Proof.
  unfold next_id. induction ids as [|a ids IH]; cbn [fold_right In]; [intros []|].
  intros [-> | Hin]; [lia|]. specialize (IH Hin). lia.
Qed.

(** With an identifier, the identity-level state shadows the
    environment-level one.  For an environment named by its key and a feature
    of its project named by the request, in a store that keeps the uniqueness
    constraints: a look-up with the identifier of an identity that has a state
    [I] of its own is answered 200 with [I]; a look-up with an identifier that
    has none is answered 200 with the environment-level state [E]. *)
Lemma identity_lookup_shadows
      (st : Store) (key name identifier : string)
      (environment : Environment) (feature : Feature) :
  unique_identities st ->
  unique_feature_states st ->
  identities_exist st ->
  environments_by_key st key = [environment] ->
  features_by_name st name (environment_project environment) = [feature] ->
  identifier <> "" ->
  (forall ident I,
      identities_by st identifier environment = [ident] ->
      In I (feature_states st) ->
      fs_key I = (environment_id environment, feature_id feature, Some (identity_id ident)) ->
      handle (SDK (mkSDKRequest (Some key) (Some name)) (Some identifier)) st =
      (st, mkResponse (serialized FeatureStateSerializerFull I) HTTP_200_OK))
  /\
  (forall E,
      (forall ident fs,
          In ident (identities_by st identifier environment) ->
          In fs (feature_states st) ->
          fs_key fs <>
          (environment_id environment, feature_id feature, Some (identity_id ident))) ->
      In E (feature_states st) ->
      fs_key E = (environment_id environment, feature_id feature, None) ->
      snd (handle (SDK (mkSDKRequest (Some key) (Some name)) (Some identifier)) st) =
      mkResponse (serialized FeatureStateSerializerFull E) HTTP_200_OK).
Proof.
  intros Hui [Hkeys Hids] Hfk Henv Hfeat Hid.
  destruct identifier as [|c rest]; [congruence|]. clear Hid.
  set (identifier := String c rest) in *.
  assert (Htruthy : truthy (Some identifier) = Some identifier) by reflexivity.
  assert (Hby : forall fs, In fs (feature_states st) ->
            forall e f i, fs_key fs = (e, f, i) -> feature_states_by st e f i = [fs]).
  { intros fs Hin e f i Hk. unfold fs_key in Hk. inversion Hk; subst.
    apply feature_states_by_unique; assumption. }
  split.
  - intros ident I Hident HI HkI.
    unfold handle, SDKFeatureStates.get.
    cbn [META_HTTP_X_ENVIRONMENT_KEY GET_feature].
    unfold get_object_or_404. rewrite Henv. cbn [objects_get].
    rewrite Htruthy.
    unfold SDKFeatureStates.get_or_create_identity. rewrite Hident. simpl.
    unfold SDKFeatureStates.get_identity_feature. rewrite Hfeat. simpl.
    rewrite (Hby I HI _ _ _ HkI). reflexivity.
  - intros E Hno HE HkE.
    unfold handle, SDKFeatureStates.get.
    cbn [META_HTTP_X_ENVIRONMENT_KEY GET_feature].
    unfold get_object_or_404. rewrite Henv. cbn [objects_get].
    rewrite Htruthy.
    unfold SDKFeatureStates.get_or_create_identity.
    destruct (identities_at_most_one st identifier environment Hui) as [Hn | [j Hj]].
    + rewrite Hn. cbn [objects_get]. unfold Identity_objects_create.
      cbv beta iota zeta.
      rewrite (get_identity_feature_ext _ st) by reflexivity.
      unfold SDKFeatureStates.get_identity_feature.
      rewrite Hfeat. cbn [objects_get identity_id].
      rewrite (feature_states_by_none st (environment_id environment) (feature_id feature)
                 (Some (next_id (map identity_id (identities st))))).
      * cbn [objects_get]. rewrite (Hby E HE _ _ _ HkE). reflexivity.
      * intros fs Hin Hk. unfold fs_key in Hk. inversion Hk as [[He Hf Hi]].
        pose proof (next_id_fresh _ _ (Hfk fs _ Hin Hi)). lia.
    + rewrite Hj. simpl.
      unfold SDKFeatureStates.get_identity_feature. rewrite Hfeat. simpl.
      rewrite (feature_states_by_none st (environment_id environment) (feature_id feature)
                 (Some (identity_id j))).
      * simpl. rewrite (Hby E HE _ _ _ HkE). reflexivity.
      * intros fs Hin. apply Hno; [rewrite Hj; left; reflexivity | exact Hin].
Qed.

Lemma scenario_unique_identities : unique_identities Scenario.store.
Proof.
  unfold unique_identities. simpl. constructor; [intros [] | constructor].
Qed.

Lemma scenario_unique_feature_states : unique_feature_states Scenario.store.
Proof.
  split; simpl.
  - constructor; [intros [H | []]; discriminate|].
    constructor; [intros [] | constructor].
  - constructor; [intros [H | []]; discriminate|].
    constructor; [intros [] | constructor].
Qed.

Lemma scenario_identities_exist : identities_exist Scenario.store.
Proof.
  intros fs i [<- | [<- | []]]; simpl; intros H; inversion H. left. reflexivity.
Qed.

(** Without an identifier, a look-up that names a feature of the project is
    not answered, whatever states are recorded: the query set of lines
    235-237 goes to the serializer as if it were the FeatureState. *)
Lemma environment_lookup_by_name_raises
      (st : Store) (key name : string) (environment : Environment) (feature : Feature) :
  environments_by_key st key = [environment] ->
  features_by_name st name (environment_project environment) = [feature] ->
  SDKFeatureStates.get (mkSDKRequest (Some key) (Some name)) None st =
  (st, Raise AttributeError).
Proof.
  intros Henv Hfeat. unfold SDKFeatureStates.get.
  cbn [META_HTTP_X_ENVIRONMENT_KEY GET_feature truthy].
  unfold get_object_or_404. rewrite Henv. cbn [objects_get].
  unfold SDKFeatureStates.get_environment_only. rewrite Hfeat. reflexivity.
Qed.

(** C1. A look-up without identifier should return the environment-level
    FeatureState of the feature it names.  It does not: where the look-ups
    with an identifier fetch one FeatureState, and where the look-up without
    a feature name passes [many=True], this path filters and hands the query
    set to the serializer of a single FeatureState; reading its data raises,
    and the request ends as a server error.  In the scenario of section 8
    the look-ups for user42 and for a newcomer are answered with [I] and
    with [E], and the look-up for no identity, which should be answered with
    [E], is not. *)
Theorem environment_state_by_name_is_not_returned :
  handle (SDK (Scenario.flags (Some "dark_mode")) (Some "user42")) Scenario.store =
  (Scenario.store, mkResponse (serialized FeatureStateSerializerFull Scenario.I) HTTP_200_OK)
  /\
  snd (handle (SDK (Scenario.flags (Some "dark_mode")) (Some "newcomer")) Scenario.store) =
  mkResponse (serialized FeatureStateSerializerFull Scenario.E) HTTP_200_OK
  /\
  feature_states_by Scenario.store 1 1 None = [Scenario.E]
  /\
  SDKFeatureStates.get (Scenario.flags (Some "dark_mode")) None Scenario.store =
  (Scenario.store, Raise AttributeError)
  /\
  handle (SDK (Scenario.flags (Some "dark_mode")) None) Scenario.store =
  (Scenario.store, mkResponse server_error HTTP_500_INTERNAL_SERVER_ERROR).
Proof. repeat split; reflexivity. Qed.

(** ** The SDK look-up: what it writes *)

(** C9. An SDK look-up writes nothing but, at most, one identity.  The
    tables of feature states, feature state values, environments and features
    come out as they went in; the store is either unchanged, or the request
    carried an identifier for which the environment of the key had no
    identity, and that one identity has been added; without an identifier the
    store is unchanged. *)
Theorem sdk_lookup_writes_one_identity_at_most
        (st : Store) (request : SDKRequest) (identifier : option string) :
  let st' := fst (SDKFeatureStates.get request identifier st) in
  feature_states st' = feature_states st /\
  feature_state_values st' = feature_state_values st /\
  environments st' = environments st /\
  features st' = features st /\
  (st' = st \/
   exists key environment i,
     META_HTTP_X_ENVIRONMENT_KEY request = Some key /\
     environments_by_key st key = [environment] /\
     truthy identifier = Some i /\
     identities_by st i environment = [] /\
     identities st' =
     identities st ++ [mkIdentity (next_id (map identity_id (identities st)))
                                  i (environment_id environment)]) /\
  (truthy identifier = None -> st' = st).
Proof.
  unfold SDKFeatureStates.get.
  destruct (META_HTTP_X_ENVIRONMENT_KEY request) as [key|] eqn:Hkey;
    [|simpl; intuition].
  unfold get_object_or_404, objects_get.
  destruct (environments_by_key st key) as [|environment [|e2 l]] eqn:Henv;
    [simpl; intuition | | simpl; intuition].
  destruct (truthy identifier) as [i|] eqn:Hi.
  - pose proof (get_or_create_identity_store i environment st) as Hst.
    destruct (SDKFeatureStates.get_or_create_identity i environment st)
      as [st1 o] eqn:Hget.
    assert (Hfst : fst (match o with
                        | Return ident =>
                            match GET_feature request with
                            | Some name =>
                                (st1, SDKFeatureStates.get_identity_feature
                                        environment ident name st1)
                            | None =>
                                let '(identity_flags, environment_flags) :=
                                  get_all_feature_states st1 ident in
                                (st1, Return
                                        (mkResponse
                                           (serialized_many SDKFeatureStates.get_serializer
                                              (environment_flags ++ identity_flags))
                                           HTTP_200_OK))
                            end
                        | Raise e => (st1, Raise e)
                        end) = st1).
    { destruct o as [ident|e]; [|reflexivity].
      destruct (GET_feature request); [reflexivity|].
      unfold get_all_feature_states. reflexivity. }
    cbv zeta. rewrite Hfst.
    destruct Hst as [-> | (Hnone & _ & ->)].
    + do 4 (split; [reflexivity|]).
      split; [left; reflexivity | intros H; discriminate H].
    + do 4 (split; [reflexivity|]).
      split; [|intros H; discriminate H].
      right. exists key, environment, i.
      do 4 (split; [assumption || reflexivity|]). reflexivity.
  - cbn [fst]. do 4 (split; [reflexivity|]).
    split; [left; reflexivity | reflexivity].
Qed.

Lemma sdk_lookup_writes_one_identity_at_most_witness :
  fst (SDKFeatureStates.get (Scenario.flags (Some "dark_mode")) None Scenario.store) =
  Scenario.store.
Proof.
  apply (sdk_lookup_writes_one_identity_at_most
           Scenario.store (Scenario.flags (Some "dark_mode")) None).
  reflexivity.
Defined.

(** ** The administrative create *)

Lemma dict_get_set_other (key k : string) (v : JValue) (d : Dict) :
  k <> key -> dict_get key (dict_set k v d) = dict_get key d.
Proof.
  intros Hne. induction d as [|[k0 v0] d IH]; simpl.
  - apply String.eqb_neq in Hne. rewrite Hne. reflexivity.
  - destruct (String.eqb k0 k) eqn:Hk; simpl.
    + apply String.eqb_eq in Hk. subst k0.
      apply String.eqb_neq in Hne. rewrite Hne. reflexivity.
    + rewrite IH. reflexivity.
Qed.

Lemma existsb_eqb_false (x : Z) (l : list Z) :
  ~ In x l -> existsb (Z.eqb x) l = false.
Proof.
  intros Hnot. destruct (existsb (Z.eqb x) l) eqn:He; [|reflexivity].
  apply existsb_exists in He. destruct He as (y & Hin & Hxy).
  apply Z.eqb_eq in Hxy. subst y. contradiction.
Qed.

(** What [create] does about the feature of the payload, for a URL that
    names an environment: without a feature the answer is 400, "Feature not
    provided"; a feature [int] does not convert makes [create] raise what
    [int] raised; a feature that converts, but not to a feature of the
    environment's project, is answered 400, "Feature does not exist in
    project".  All three leave the store as it was, so that nothing is written
    unless the feature is one of the project. *)
Lemma create_checks_the_feature_first
      (st : Store) (kwargs : Kwargs) (request_data : Dict) (environment : Environment) :
  FeatureStateViewSet.get_environment_from_request kwargs st = Return environment ->
  (dict_get "feature" request_data = None ->
   route POST kwargs request_data st =
   (st, Return (mkResponse (detail "Feature not provided") HTTP_400_BAD_REQUEST)))
  /\
  (forall value e,
      dict_get "feature" request_data = Some value ->
      py_int value = Raise e ->
      route POST kwargs request_data st = (st, Raise e))
  /\
  (forall value feature,
      dict_get "feature" request_data = Some value ->
      py_int value = Return feature ->
      ~ In feature (map feature_id
                        (project_features st (environment_project environment))) ->
      route POST kwargs request_data st =
      (st, Return (mkResponse (detail "Feature does not exist in project")
                              HTTP_400_BAD_REQUEST)))
  /\
  (fst (route POST kwargs request_data st) <> st ->
   exists value feature,
     dict_get "feature" request_data = Some value /\
     py_int value = Return feature /\
     In feature (map feature_id
                     (project_features st (environment_project environment)))).
Proof.
  intros Henv.
  assert (Hget : forall d,
             dict_get "feature" (dict_set "environment" (JInt (environment_id environment)) d)
             = dict_get "feature" d).
  { intros d. apply dict_get_set_other. discriminate. }
  split; [|split; [|split]].
  - intros Hnone. unfold route, FeatureStateViewSet.create.
    rewrite Henv, Hget, Hnone. reflexivity.
  - intros value e Hsome Hint. unfold route, FeatureStateViewSet.create.
    rewrite Henv, Hget, Hsome, Hint. reflexivity.
  - intros value feature Hsome Hint Hnot. unfold route, FeatureStateViewSet.create.
    rewrite Henv, Hget, Hsome, Hint.
    rewrite (existsb_eqb_false _ _ Hnot). reflexivity.
  - unfold route, FeatureStateViewSet.create. rewrite Henv, Hget.
    destruct (dict_get "feature" request_data) as [value|];
      [|intros H; exfalso; apply H; reflexivity].
    destruct (py_int value) as [feature|e] eqn:Hint;
      [|intros H; exfalso; apply H; reflexivity].
    destruct (existsb (Z.eqb feature) _) eqn:Hin;
      [|intros H; exfalso; apply H; reflexivity].
    intros _. exists value, feature. split; [reflexivity|]. split; [exact Hint|].
    apply existsb_exists in Hin. destruct Hin as (x & Hx & Heq).
    apply Z.eqb_eq in Heq. subst x. exact Hx.
Qed.

(** C8. A create request whose payload names no feature of the project
    should be answered 400.  Where the feature is left out, and where it is
    the number of a feature of another project, it is, and before anything is
    written.  Where the payload carries [null], or a string that is no
    number, for the feature, it is not: the key is there, so the first check
    passes, and [int], called on the value between the two checks, raises;
    nothing catches the exception and the request ends as a server error. *)
Theorem create_feature_checks_miss_int :
  route POST (Scenario.nested (Some "user42") 0) [("enabled", JBool true)] Scenario.store =
  (Scenario.store,
   Return (mkResponse (detail "Feature not provided") HTTP_400_BAD_REQUEST))
  /\
  route POST (Scenario.nested None 0) [("feature", JStr " 3")] Scenario.store =
  (Scenario.store,
   Return (mkResponse (detail "Feature does not exist in project") HTTP_400_BAD_REQUEST))
  /\
  route POST (Scenario.nested None 0) [("feature", JNull)] Scenario.store =
  (Scenario.store, Raise TypeError)
  /\
  handle (Admin POST (Scenario.nested None 0) [("feature", JNull)]) Scenario.store =
  (Scenario.store, mkResponse server_error HTTP_500_INTERNAL_SERVER_ERROR)
  /\
  route POST (Scenario.nested None 0) [("feature", JStr "seven")] Scenario.store =
  (Scenario.store, Raise ValueError)
  /\
  handle (Admin POST (Scenario.nested None 0) [("feature", JStr "seven")]) Scenario.store =
  (Scenario.store, mkResponse server_error HTTP_500_INTERNAL_SERVER_ERROR).
Proof. repeat split; reflexivity. Qed.

(** Whatever the value serializer says, a valid feature state is stored and
    answered 201. *)
Lemma create_validated_drops_value_response
      (st : Store) (data : Dict) (row : Z * Z * option Z * bool) (value : JValue) :
  values_owned st ->
  is_valid st None data false = Some row ->
  violates_unique None row st = false ->
  dict_get "feature_state_value" data = Some value ->
  value_is_valid (generate_feature_state_value_data (snd (insert_row row st)) value) = false ->
  FeatureStateViewSet.create_validated data st =
  (fst (insert_row row st),
   Return (mkResponse (serialized FeatureStateSerializerBasic (snd (insert_row row st)))
                      HTTP_201_CREATED)).
Proof.
  intros Hown Hvalid Hfree Hvalue Hbad. unfold FeatureStateViewSet.create_validated.
  rewrite Hvalid. unfold save_new. rewrite Hfree.
  destruct (insert_row row st) as [st1 feature_state] eqn:Hsave.
  rewrite Hvalue. simpl in Hbad |- *.
  assert (Hfsv : exists instance, feature_state_value_of st1 feature_state = Return instance).
  { destruct row as [[[f e] i] en]. unfold insert_row in Hsave.
    inversion Hsave; subst; clear Hsave.
    unfold feature_state_value_of. simpl.
    rewrite filter_app. simpl. rewrite Z.eqb_refl.
    rewrite filter_all_false.
    - eexists. reflexivity.
    - intros v Hv. apply Z.eqb_neq. intros Heq.
      pose proof (next_id_fresh _ _ (Hown v Hv)) as Hlt. lia. }
  destruct Hfsv as [instance ->].
  unfold FeatureStateViewSet.update_feature_state_value. rewrite Hbad. reflexivity.
Qed.

(** C4. A create request should not answer 201 with a stored FeatureState
    when its feature_state_value is not valid.  It does: the response object
    that [update_feature_state_value] returns for the rejected value is
    dropped by [create], which has by then saved the FeatureState (with its
    untyped value row) and goes on to answer 201. *)
Theorem create_with_invalid_value_is_201 :
  value_is_valid (generate_feature_state_value_data
                    (mkFeatureState 3 2 1 None false) (JList [JInt 1])) = false
  /\
  route POST (Scenario.nested None 0)
        [("feature", JInt 2); ("feature_state_value", JList [JInt 1])] Scenario.store =
  (mkStore (environments Scenario.store) (features Scenario.store)
           (identities Scenario.store)
           (feature_states Scenario.store ++ [mkFeatureState 3 2 1 None false])
           (feature_state_values Scenario.store ++
            [mkFeatureStateValue 3 3 NONE None None None]),
   Return (mkResponse (serialized FeatureStateSerializerBasic
                                  (mkFeatureState 3 2 1 None false))
                      HTTP_201_CREATED)).
Proof. split; reflexivity. Qed.

(** ** The administrative update *)

(** C5. An update whose feature_state_value is not valid should be answered
    400.  It is not: [update] takes the [id] of what
    [update_feature_state_value] returned, which for a rejected value is a
    response object and has none; the [AttributeError] is not handled and the
    request ends as a server error, for PUT and PATCH alike. *)
Theorem update_with_invalid_value_is_not_400 :
  FeatureStateViewSet.update (Scenario.nested None 1)
    [("feature_state_value", JList [JInt 1])] Scenario.store =
  (Scenario.store, Raise AttributeError)
  /\
  status (snd (handle (Admin PATCH (Scenario.nested None 1)
                             [("feature_state_value", JList [JInt 1])])
                      Scenario.store)) = HTTP_500_INTERNAL_SERVER_ERROR
  /\
  status (snd (handle (Admin PUT (Scenario.nested None 1)
                             [("feature_state_value", JList [JInt 1])])
                      Scenario.store)) = HTTP_500_INTERNAL_SERVER_ERROR.
Proof. repeat split; reflexivity. Qed.

(** The same at every store: a rejected value makes [update] raise. *)
Lemma update_value_rejected (st : Store) (fs : FeatureState) (data : Dict)
      (value : JValue) (instance : FeatureStateValue) :
  dict_get "feature_state_value" data = Some value ->
  feature_state_value_of st fs = Return instance ->
  value_is_valid (generate_feature_state_value_data fs value) = false ->
  FeatureStateViewSet.update_value fs data st = (st, Raise AttributeError).
Proof.
  intros Hv Hi Hbad. unfold FeatureStateViewSet.update_value.
  rewrite Hv, Hi. unfold FeatureStateViewSet.update_feature_state_value.
  rewrite Hbad. reflexivity.
Qed.

(** The value is written before the FeatureState is validated and saved: an
    update with a good value and a malformed [enabled] is refused, and the
    value has been written all the same. *)
Lemma update_writes_the_value_first :
  FeatureStateViewSet.update (Scenario.nested None 1)
    [("feature_state_value", JInt 5); ("enabled", JStr "yes")] Scenario.store =
  (mkStore (environments Scenario.store) (features Scenario.store)
           (identities Scenario.store) (feature_states Scenario.store)
           [mkFeatureStateValue 1 1 INTEGER None (Some 5) None;
            mkFeatureStateValue 2 2 STRING None None (Some "blue")],
   Raise ValidationError).
Proof. reflexivity. Qed.

Lemma NoDup_map_in_inj {A K} (key : A -> K) (l : list A) (a b : A) :
  NoDup (map key l) -> In a l -> In b l -> key a = key b -> a = b.
Proof.
  induction l as [|x l IH]; simpl; intros Hnd Ha Hb Hk; [destruct Ha|].
  inversion Hnd as [|? ? Hnotin Hnd']; subst.
  destruct Ha as [-> | Ha], Hb as [-> | Hb].
  - reflexivity.
  - exfalso. apply Hnotin. rewrite Hk. apply in_map. exact Hb.
  - exfalso. apply Hnotin. rewrite <- Hk. apply in_map. exact Ha.
  - apply IH; assumption.
Qed.

Lemma get_object_in (kwargs : Kwargs) (st : Store) (fs : FeatureState) :
  FeatureStateViewSet.get_object kwargs st = Return fs ->
  In fs (feature_states st) /\ fs_id fs = kwargs_pk kwargs.
Proof.
  unfold FeatureStateViewSet.get_object.
  destruct (FeatureStateViewSet.get_queryset kwargs st) as [queryset|e] eqn:Hq;
    [|discriminate].
  assert (Hsub : forall x, In x queryset -> In x (feature_states st)).
  { unfold FeatureStateViewSet.get_queryset in Hq.
    destruct (objects_get EnvironmentModel _) as [environment|e]; [|discriminate].
    destruct (truthy (kwargs_identity_identifier kwargs)) as [identifier|].
    - destruct (objects_get IdentityModel _) as [ident|e]; [|discriminate].
      inversion Hq; subst. intros x Hx. unfold feature_states_of in Hx.
      apply filter_In in Hx. tauto.
    - inversion Hq; subst. intros x Hx. unfold feature_states_of in Hx.
      apply filter_In in Hx. tauto. }
  unfold get_object_or_404, objects_get.
  destruct (filter _ queryset) as [|x [|y l]] eqn:Hf; try discriminate.
  intros H. inversion H; subst.
  assert (Hx : In fs (filter (fun fs0 => fs_id fs0 =? kwargs_pk kwargs) queryset))
    by (rewrite Hf; left; reflexivity).
  apply filter_In in Hx. destruct Hx as [Hin Hpk].
  apply Z.eqb_eq in Hpk. auto.
Qed.

Lemma feature_state_eta (fs : FeatureState) :
  mkFeatureState (fs_id fs) (fs_feature fs) (fs_environment fs)
                 (fs_identity fs) (fs_enabled fs) = fs.
Proof. destruct fs; reflexivity. Qed.

(** Rewriting the row of [fs] with [fs] itself changes nothing. *)
Lemma rewrite_same_row (l : list FeatureState) (fs : FeatureState) :
  NoDup (map fs_id l) -> In fs l ->
  map (fun r => if fs_id r =? fs_id fs then fs else r) l = l.
Proof.
  intros Hnd Hin. rewrite <- (map_id l) at 2. apply map_ext_in.
  intros r Hr. destruct (fs_id r =? fs_id fs) eqn:Hid; [|reflexivity].
  apply Z.eqb_eq in Hid. symmetry.
  apply (NoDup_map_in_inj fs_id l); assumption.
Qed.

(** In a store that keeps the uniqueness constraint, no other row has the
    tuple of [fs]. *)
Lemma no_other_row (st : Store) (fs : FeatureState) :
  unique_feature_states st -> In fs (feature_states st) ->
  existsb (fun r => andb (same_tuple (fs_feature fs) (fs_environment fs)
                                     (fs_identity fs) r)
                         (negb (is_instance (Some fs) r)))
          (feature_states st) = false.
Proof.
  intros [Hkeys _] Hin.
  destruct (existsb _ (feature_states st)) eqn:He; [|reflexivity].
  apply existsb_exists in He. destruct He as (r & Hr & Hb).
  apply andb_true_iff in Hb. destruct Hb as [Hsame Hnot].
  apply same_tuple_key in Hsame.
  assert (r = fs).
  { apply (NoDup_map_in_inj fs_key (feature_states st)); assumption. }
  subst r. simpl in Hnot. rewrite Z.eqb_refl in Hnot. discriminate.
Qed.

(** C10. An update is partial whether it comes as PUT or as PATCH: the two
    are answered alike, although a payload without a feature does not pass
    the serializer's full validation.  In a store that keeps the uniqueness
    constraint, an update whose payload holds a (valid) feature_state_value
    and nothing else rewrites the value row of the FeatureState and leaves the
    table of feature states, with the record's enabled flag and identity, as
    it was. *)
Theorem update_is_always_partial (st : Store) (kwargs : Kwargs) :
  (forall request_data,
      route PUT kwargs request_data st = route PATCH kwargs request_data st)
  /\
  (forall fs request_data,
      dict_get "feature" request_data = None ->
      is_valid st (Some fs) request_data false = None)
  /\
  (forall method fs instance value,
      method <> POST ->
      unique_feature_states st ->
      FeatureStateViewSet.get_object kwargs st = Return fs ->
      feature_state_value_of st fs = Return instance ->
      value_is_valid (generate_feature_state_value_data fs value) = true ->
      route method kwargs [("feature_state_value", value)] st =
      (mkStore (environments st) (features st) (identities st) (feature_states st)
               (map (fun v => if fsv_id v =? fsv_id instance
                              then assign_value instance
                                     (generate_feature_state_value_data fs value)
                              else v)
                    (feature_state_values st)),
       Return (mkResponse (serialized FeatureStateSerializerBasic fs) HTTP_200_OK))).
Proof.
  split; [reflexivity|]. split.
  - intros fs request_data Hnone. unfold is_valid. rewrite Hnone. reflexivity.
  - intros method fs instance value Hmethod Hu Hobj Hinst Hvalid.
    assert (Hroute : route method kwargs [("feature_state_value", value)] st =
                     FeatureStateViewSet.update kwargs [("feature_state_value", value)] st).
    { destruct method; [contradiction | reflexivity | reflexivity]. }
    rewrite Hroute. clear Hroute Hmethod.
    destruct (get_object_in kwargs st fs Hobj) as [Hin _].
    unfold FeatureStateViewSet.update. rewrite Hobj.
    unfold FeatureStateViewSet.update_value.
    cbn [dict_get String.eqb Ascii.eqb Bool.eqb].
    rewrite Hinst.
    unfold FeatureStateViewSet.update_feature_state_value. rewrite Hvalid.
    unfold value_save. cbv zeta.
    unfold is_valid.
    cbn [dict_set dict_get String.eqb Ascii.eqb Bool.eqb negb run_field merged
         option_map fs_feature fs_environment validated_feature validated_environment
         validated_identity validated_enabled feature_states].
    unfold save_instance, violates_unique. cbn [feature_states].
    rewrite (no_other_row st fs Hu Hin).
    unfold update_row. cbn [feature_states environments features identities
                            feature_state_values].
    rewrite feature_state_eta.
    rewrite (rewrite_same_row (feature_states st) fs (proj2 Hu) Hin).
    reflexivity.
Qed.

Lemma update_is_always_partial_witness :
  route PUT (Scenario.nested None 1) [("enabled", JBool true)] Scenario.store =
  route PATCH (Scenario.nested None 1) [("enabled", JBool true)] Scenario.store
  /\
  is_valid Scenario.store (Some Scenario.E) [("enabled", JBool true)] false = None
  /\
  route PUT (Scenario.nested None 1) [("feature_state_value", JInt 5)] Scenario.store =
  (mkStore (environments Scenario.store) (features Scenario.store)
           (identities Scenario.store) [Scenario.E; Scenario.I]
           [mkFeatureStateValue 1 1 INTEGER None (Some 5) None;
            mkFeatureStateValue 2 2 STRING None None (Some "blue")],
   Return (mkResponse (serialized FeatureStateSerializerBasic Scenario.E) HTTP_200_OK)).
Proof.
  destruct (update_is_always_partial Scenario.store (Scenario.nested None 1))
    as (Hsame & Hfull & Hvalue).
  split; [apply Hsame|]. split.
  - apply Hfull. reflexivity.
  - apply (Hvalue PUT Scenario.E (mkFeatureStateValue 1 1 NONE None None None) (JInt 5)).
    + discriminate.
    + exact scenario_unique_feature_states.
    + reflexivity.
    + reflexivity.
    + reflexivity.
Defined.

(** ** The uniqueness constraint is kept *)

Lemma NoDup_snoc {A} (l : list A) (x : A) : NoDup l -> ~ In x l -> NoDup (l ++ [x]).
Proof.
  induction l as [|a l IH]; simpl; intros Hnd Hx.
  - constructor; [intros [] | constructor].
  - inversion Hnd as [|? ? Ha Hl]; subst. constructor.
    + rewrite in_app_iff. simpl. intros [H | [H | []]]; [contradiction|].
      apply Hx. left. symmetry. exact H.
    + apply IH; [exact Hl|]. intros H. apply Hx. right. exact H.
Qed.




(** The look-up of the SDK leaves the feature states alone. *)
Lemma sdk_get_feature_states (request : SDKRequest) (identifier : option string)
      (st : Store) :
  feature_states (fst (SDKFeatureStates.get request identifier st)) = feature_states st.
Proof.
  unfold SDKFeatureStates.get.
  destruct (META_HTTP_X_ENVIRONMENT_KEY request) as [key|]; [|reflexivity].
  destruct (get_object_or_404 EnvironmentModel _) as [environment|e]; [|reflexivity].
  destruct (truthy identifier) as [i|]; [|reflexivity].
  pose proof (get_or_create_identity_store i environment st) as Hst.
  destruct (SDKFeatureStates.get_or_create_identity i environment st) as [st1 [ident|e]].
  - destruct (GET_feature request); cbn [fst get_all_feature_states];
      destruct Hst as [-> | (_ & _ & ->)]; reflexivity.
  - destruct Hst as [-> | (_ & _ & ->)]; reflexivity.
Qed.

(** Writing a value leaves every other table alone. *)
Lemma update_feature_state_value_tables (instance : FeatureStateValue) (value : JValue)
      (feature_state : FeatureState) (st : Store) :
  let st' := fst (FeatureStateViewSet.update_feature_state_value
                    instance value feature_state st) in
  environments st' = environments st /\ features st' = features st /\
  identities st' = identities st /\ feature_states st' = feature_states st.
Proof.
  unfold FeatureStateViewSet.update_feature_state_value.
  destruct (value_is_valid _); simpl; auto.
Qed.


Lemma update_value_tables (fs : FeatureState) (data : Dict) (st : Store) :
  let st' := fst (FeatureStateViewSet.update_value fs data st) in
  environments st' = environments st /\ features st' = features st /\
  identities st' = identities st /\ feature_states st' = feature_states st.
Proof.
  unfold FeatureStateViewSet.update_value.
  destruct (dict_get "feature_state_value" data) as [value|]; [|simpl; auto].
  destruct (feature_state_value_of st fs) as [instance|e]; [|simpl; auto].
  pose proof (update_feature_state_value_tables instance value fs st) as Ht.
  destruct (FeatureStateViewSet.update_feature_state_value instance value fs st)
    as [st1 [v|r]]; exact Ht.
Qed.

(** [update] rewrites at most one row, that of a FeatureState of the store,
    with what the store let through. *)
Lemma update_feature_states (kwargs : Kwargs) (request_data : Dict) (st : Store) :
  let st' := fst (FeatureStateViewSet.update kwargs request_data st) in
  feature_states st' = feature_states st \/
  exists fs st1 feature environment ident enabled,
    In fs (feature_states st) /\
    feature_states st1 = feature_states st /\
    violates_unique (Some fs) (feature, environment, ident, enabled) st1 = false /\
    feature_states st' =
    map (fun r => if fs_id r =? fs_id fs
                  then mkFeatureState (fs_id fs) feature environment ident enabled
                  else r)
        (feature_states st).
Proof.
  unfold FeatureStateViewSet.update.
  destruct (FeatureStateViewSet.get_object kwargs st) as [fs|e] eqn:Hobj;
    [|left; reflexivity].
  destruct (get_object_in kwargs st fs Hobj) as [Hin _].
  pose proof (update_value_tables fs request_data st) as Ht.
  destruct (FeatureStateViewSet.update_value fs request_data st) as [st1 [data|e]];
    cbn [fst] in Ht; destruct Ht as (_ & _ & _ & Hfs).
  - destruct (is_valid st1 (Some fs) data true) as [[[[f e] i] en]|].
    + unfold save_instance.
      destruct (violates_unique (Some fs) (f, e, i, en) st1) eqn:Hfree;
        [left; exact Hfs|].
      right. exists fs, st1, f, e, i, en.
      repeat split; try assumption.
      unfold update_row. cbn [fst feature_states]. rewrite Hfs. reflexivity.
    + left. exact Hfs.
  - left. exact Hfs.
Qed.

Section Rewrite.

Variables (i : Z) (n : FeatureState).
Hypothesis n_id : fs_id n = i.

Local Abbreviation rewrite_row := (fun r : FeatureState => if fs_id r =? i then n else r).

Lemma rewrite_row_id (l : list FeatureState) :
  map fs_id (map rewrite_row l) = map fs_id l.
Proof.
  rewrite map_map. apply map_ext. intros r. cbv beta.
  destruct (fs_id r =? i) eqn:Hr; [|reflexivity].
  apply Z.eqb_eq in Hr. congruence.
Qed.



End Rewrite.

Lemma handle_store (r : Request) (st : Store) :
  fst (handle r st) =
  match r with
  | Admin method kwargs request_data => fst (route method kwargs request_data st)
  | SDK request identifier => fst (SDKFeatureStates.get request identifier st)
  end.
Proof.
  unfold handle. destruct r as [method kwargs request_data | request identifier].
  - destruct (route method kwargs request_data st); reflexivity.
  - destruct (SDKFeatureStates.get request identifier st); reflexivity.
Qed.


(** ** A second create for the same tuple *)

(** A create answered 201 has written one row, the one the serializer and
    the store let through and the one it answers with, and no environment,
    feature or identity. *)
Lemma create_validated_201 (payload : Dict) (st st1 : Store) (response : Response) :
  FeatureStateViewSet.create_validated payload st = (st1, Return response) ->
  status response = HTTP_201_CREATED ->
  exists feature environment ident enabled,
    is_valid st None payload false = Some (feature, environment, ident, enabled) /\
    violates_unique None (feature, environment, ident, enabled) st = false /\
    environments st1 = environments st /\ features st1 = features st /\
    identities st1 = identities st /\
    feature_states st1 =
    feature_states st ++
    [mkFeatureState (next_id (map fs_id (feature_states st)))
                    feature environment ident enabled] /\
    response =
    mkResponse (serialized FeatureStateSerializerBasic
                  (mkFeatureState (next_id (map fs_id (feature_states st)))
                                  feature environment ident enabled))
               HTTP_201_CREATED.
Proof.
  unfold FeatureStateViewSet.create_validated.
  destruct (is_valid st None payload false) as [[[[f e] i] en]|] eqn:Hvalid.
  - unfold save_new.
    destruct (violates_unique None (f, e, i, en) st) eqn:Hfree; [discriminate|].
    intros H _. exists f, e, i, en. split; [reflexivity|]. split; [exact Hfree|].
    unfold insert_row in H.
    destruct (dict_get "feature_state_value" payload) as [value|].
    + destruct (feature_state_value_of _ _) as [instance|err].
      * match type of H with
        | context [FeatureStateViewSet.update_feature_state_value ?a ?b ?c ?s] =>
            pose proof (update_feature_state_value_tables a b c s) as Ht;
            destruct (FeatureStateViewSet.update_feature_state_value a b c s) as [st2 r]
        end.
        cbn [fst] in Ht. destruct Ht as (He & Hf & Hi & Hs).
        inversion H; subst st2. cbn in He, Hf, Hi, Hs. auto 6.
      * discriminate H.
    + inversion H; subst. cbn. auto 6.
  - intros H Hstatus. inversion H; subst. discriminate Hstatus.
Qed.

(** What [create] does before it reaches the serializer depends on the
    environments, features and identities only. *)
Lemma create_ext (kwargs : Kwargs) (request_data : Dict) (st st1 : Store) :
  environments st1 = environments st -> features st1 = features st ->
  identities st1 = identities st ->
  (exists o, FeatureStateViewSet.create kwargs request_data st = (st, o) /\
             FeatureStateViewSet.create kwargs request_data st1 = (st1, o) /\
             forall response, o = Return response ->
                              status response = HTTP_400_BAD_REQUEST)
  \/
  (exists data,
      FeatureStateViewSet.create kwargs request_data st =
      FeatureStateViewSet.create_validated data st /\
      FeatureStateViewSet.create kwargs request_data st1 =
      FeatureStateViewSet.create_validated data st1).
Proof.
  intros He Hf Hi.
  unfold FeatureStateViewSet.create, FeatureStateViewSet.get_environment_from_request,
    FeatureStateViewSet.add_identity, FeatureStateViewSet.get_identity_from_request,
    environments_by_key, project_features, identities_by.
  rewrite He, Hf, Hi.
  destruct (objects_get EnvironmentModel _) as [environment|e];
    [|left; eexists; repeat split; discriminate].
  destruct (dict_get "feature" _) as [feature|];
    [|left; eexists; repeat split; intros r Hr; inversion Hr; reflexivity].
  destruct (py_int feature) as [feature_id'|e];
    [|left; eexists; repeat split; discriminate].
  destruct (negb _);
    [left; eexists; repeat split; intros r Hr; inversion Hr; reflexivity|].
  destruct (truthy (kwargs_identity_identifier kwargs)) as [identifier|].
  - destruct (objects_get IdentityModel _) as [ident|e];
      [|left; eexists; repeat split; discriminate].
    right. eexists. split; reflexivity.
  - right. eexists. split; reflexivity.
Qed.






(** ** More on the SDK look-up *)

Lemma identities_by_snoc (st : Store) (identifier : string) (environment : Environment)
      (st' : Store) :
  identities_by st identifier environment = [] ->
  identities st' =
  identities st ++ [mkIdentity (next_id (map identity_id (identities st)))
                               identifier (environment_id environment)] ->
  identities_by st' identifier environment =
  [mkIdentity (next_id (map identity_id (identities st)))
              identifier (environment_id environment)].
Proof.
  intros Hnone Hst'. unfold identities_by in *. rewrite Hst', filter_app, Hnone.
  cbn [filter identity_identifier identity_environment app].
  rewrite String.eqb_refl, Z.eqb_refl. reflexivity.
Qed.

(** X1. A look-up made a second time is answered as the first time and
    writes nothing more: the identity it may have created is found again. *)
Theorem sdk_lookup_twice (request : SDKRequest) (identifier : option string)
        (st : Store) :
  SDKFeatureStates.get request identifier
    (fst (SDKFeatureStates.get request identifier st)) =
  SDKFeatureStates.get request identifier st.
Proof.
  unfold SDKFeatureStates.get.
  destruct (META_HTTP_X_ENVIRONMENT_KEY request) as [key|]; [|reflexivity].
  destruct (get_object_or_404 EnvironmentModel (environments_by_key st key))
    as [environment|e] eqn:Henv; [|cbn [fst]; rewrite Henv; reflexivity].
  destruct (truthy identifier) as [i|];
    [|cbn [fst]; rewrite Henv; reflexivity].
  pose proof (get_or_create_identity_store i environment st) as Hst.
  destruct (SDKFeatureStates.get_or_create_identity i environment st)
    as [st1 o] eqn:Hget.
  assert (Hagain : environments_by_key st1 key = environments_by_key st key /\
                   SDKFeatureStates.get_or_create_identity i environment st1 = (st1, o)).
  { destruct Hst as [-> | (Hnone & -> & ->)]; [split; [reflexivity | exact Hget]|].
    split; [reflexivity|].
    unfold SDKFeatureStates.get_or_create_identity.
    erewrite identities_by_snoc; [reflexivity | exact Hnone | reflexivity]. }
  destruct Hagain as [Hkey Hsame].
  assert (Hfst : forall (k : Identity -> Store * Outcome Response),
             (forall ident, fst (k ident) = st1) ->
             fst (match o with
                  | Return ident => k ident
                  | Raise e => (st1, Raise e)
                  end) = st1).
  { intros k Hk. destruct o; [apply Hk | reflexivity]. }
  rewrite Hfst.
  - rewrite Hkey, Henv, Hsame. reflexivity.
  - intros ident. destruct (GET_feature request); [reflexivity|].
    unfold get_all_feature_states. reflexivity.
Qed.

(** Requests to the view set write no environment, feature or identity. *)
Lemma admin_keeps_tables (method : Method) (kwargs : Kwargs) (request_data : Dict)
      (st : Store) :
  let st' := fst (route method kwargs request_data st) in
  environments st' = environments st /\ features st' = features st /\
  identities st' = identities st.
Proof.
  assert (Hupdate : let st' := fst (FeatureStateViewSet.update kwargs request_data st) in
                    environments st' = environments st /\ features st' = features st /\
                    identities st' = identities st).
  { unfold FeatureStateViewSet.update.
    destruct (FeatureStateViewSet.get_object kwargs st) as [fs|e]; [|simpl; auto].
    pose proof (update_value_tables fs request_data st) as Ht.
    destruct (FeatureStateViewSet.update_value fs request_data st) as [st1 [data|e]];
      cbn [fst] in Ht; destruct Ht as (He & Hf & Hi & _); [|simpl; auto].
    destruct (is_valid st1 (Some fs) data true) as [[[[f e] i] en]|]; [|simpl; auto].
    unfold save_instance. destruct (violates_unique _ _ st1); simpl; auto. }
  destruct method; [|exact Hupdate|exact Hupdate].
  cbn [route].
  destruct (create_ext kwargs request_data st st eq_refl eq_refl eq_refl)
    as [(o & H1 & _ & _) | (payload & H1 & _)]; rewrite H1; [simpl; auto|].
  unfold FeatureStateViewSet.create_validated.
  destruct (is_valid st None payload false) as [[[[f e] i] en]|]; [|simpl; auto].
  unfold save_new. destruct (violates_unique _ _ st); [simpl; auto|].
  unfold insert_row.
  destruct (dict_get "feature_state_value" payload) as [value|]; [|simpl; auto].
  destruct (feature_state_value_of _ _) as [instance|err]; [|simpl; auto].
  match goal with
  | |- context [FeatureStateViewSet.update_feature_state_value ?a ?b ?c ?s] =>
      pose proof (update_feature_state_value_tables a b c s) as Ht;
      destruct (FeatureStateViewSet.update_feature_state_value a b c s) as [st2 r]
  end.
  cbn [fst] in Ht |- *. destruct Ht as (He & Hf & Hi & _).
  rewrite He, Hf, Hi. simpl. auto.
Qed.

(** The look-up of the SDK adds at most the identity it did not find. *)
Lemma sdk_get_identities (request : SDKRequest) (identifier : option string)
      (st : Store) :
  identities (fst (SDKFeatureStates.get request identifier st)) = identities st \/
  exists i environment,
    identities_by st i environment = [] /\
    identities (fst (SDKFeatureStates.get request identifier st)) =
    identities st ++ [mkIdentity (next_id (map identity_id (identities st)))
                                 i (environment_id environment)].
Proof.
  unfold SDKFeatureStates.get.
  destruct (META_HTTP_X_ENVIRONMENT_KEY request) as [key|]; [|left; reflexivity].
  destruct (get_object_or_404 EnvironmentModel _) as [environment|e];
    [|left; reflexivity].
  destruct (truthy identifier) as [i|]; [|left; reflexivity].
  pose proof (get_or_create_identity_store i environment st) as Hst.
  destruct (SDKFeatureStates.get_or_create_identity i environment st) as [st1 o].
  assert (Hfst : fst (match o with
                      | Return ident =>
                          match GET_feature request with
                          | Some name =>
                              (st1, SDKFeatureStates.get_identity_feature
                                      environment ident name st1)
                          | None =>
                              let '(identity_flags, environment_flags) :=
                                get_all_feature_states st1 ident in
                              (st1, Return
                                      (mkResponse
                                         (serialized_many SDKFeatureStates.get_serializer
                                            (environment_flags ++ identity_flags))
                                         HTTP_200_OK))
                          end
                      | Raise e => (st1, Raise e)
                      end) = st1).
  { destruct o as [ident|e]; [|reflexivity].
    destruct (GET_feature request); [reflexivity|].
    unfold get_all_feature_states. reflexivity. }
  rewrite Hfst.
  destruct Hst as [-> | (Hnone & _ & ->)]; [left; reflexivity|].
  right. exists i, environment. split; [exact Hnone | reflexivity].
Qed.

Lemma handle_keeps_unique_identities (r : Request) (st : Store) :
  unique_identities st -> unique_identities (fst (handle r st)).
Proof.
  intros Hu. rewrite handle_store. unfold unique_identities.
  destruct r as [method kwargs request_data | request identifier].
  - destruct (admin_keeps_tables method kwargs request_data st) as (_ & _ & ->).
    exact Hu.
  - destruct (sdk_get_identities request identifier st)
      as [-> | (i & environment & Hnone & ->)]; [exact Hu|].
    rewrite map_app. apply NoDup_snoc; [exact Hu|].
    cbn [map identity_key identity_identifier identity_environment].
    intros Hin. apply in_map_iff in Hin. destruct Hin as (x & Hk & Hx).
    unfold identity_key in Hk. inversion Hk as [[Hid Henv]].
    assert (Hf : In x (identities_by st i environment)).
    { unfold identities_by. apply filter_In. split; [exact Hx|].
      rewrite Hid, Henv, String.eqb_refl, Z.eqb_refl. reflexivity. }
    rewrite Hnone in Hf. destruct Hf.
Qed.

(** X2. An identifier stays unique within its environment: the constraint,
    once it holds, holds in every store that requests lead to, so that the
    look-up of an identity by identifier and environment finds at most one. *)
Theorem identities_stay_unique (st0 st : Store) :
  unique_identities st0 ->
  reachable st0 st ->
  unique_identities st /\
  forall identifier environment,
    (List.length (identities_by st identifier environment) <= 1)%nat.
Proof.
  intros Hstart Hreach.
  assert (Hu : unique_identities st).
  { induction Hreach as [|st r _ IH]; [exact Hstart|].
    apply handle_keeps_unique_identities. exact IH. }
  split; [exact Hu|].
  intros identifier environment.
  destruct (identities_at_most_one st identifier environment Hu) as [-> | [i ->]];
    simpl; lia.
Qed.

Lemma identities_stay_unique_witness :
  unique_identities
    (fst (handle (SDK (Scenario.flags None) (Some "newcomer")) Scenario.store)) /\
  forall identifier environment,
    (List.length (identities_by
               (fst (handle (SDK (Scenario.flags None) (Some "newcomer")) Scenario.store))
               identifier environment) <= 1)%nat.
Proof.
  apply (identities_stay_unique Scenario.store).
  - unfold unique_identities. simpl. constructor; [intros [] | constructor].
  - apply reachable_request. apply reachable_start.
Defined.

Lemma handle_response (r : Request) (st : Store) :
  snd (handle r st) =
  handle_exception
    match r with
    | Admin method kwargs request_data => snd (route method kwargs request_data st)
    | SDK request identifier => snd (SDKFeatureStates.get request identifier st)
    end.
Proof.
  unfold handle. destruct r as [method kwargs request_data | request identifier].
  - destruct (route method kwargs request_data st); reflexivity.
  - destruct (SDKFeatureStates.get request identifier st); reflexivity.
Qed.

Lemma objects_get_in {A} (m : Model) (rows : list A) (x : A) :
  objects_get m rows = Return x -> rows = [x].
Proof.
  destruct rows as [|a [|b l]]; simpl; intros H; inversion H. reflexivity.
Qed.

Lemma feature_states_by_in (st : Store) (environment feature : Z) (ident : option Z)
      (fs : FeatureState) :
  In fs (feature_states_by st environment feature ident) ->
  In fs (feature_states st) /\ fs_environment fs = environment /\
  fs_feature fs = feature /\ fs_identity fs = ident.
Proof.
  unfold feature_states_by. intros H. apply filter_In in H. destruct H as [Hin Hb].
  apply andb_true_iff in Hb. destruct Hb as [He Hb].
  apply andb_true_iff in Hb. destruct Hb as [Hf Hi].
  apply Z.eqb_eq in He. apply Z.eqb_eq in Hf. apply option_Z_eqb_eq in Hi. auto.
Qed.

Lemma feature_states_of_in (st : Store) (environment : Z) (ident : option Z)
      (fs : FeatureState) :
  In fs (feature_states_of st environment ident) <->
  In fs (feature_states st) /\ fs_environment fs = environment /\
  fs_identity fs = ident.
Proof.
  unfold feature_states_of. rewrite filter_In, andb_true_iff, Z.eqb_eq, option_Z_eqb_eq.
  tauto.
Qed.

(** The identity a look-up works with is the one identity of the
    identifier in the environment, in the store the look-up leaves, and the
    feature states are as before. *)
Lemma get_or_create_identity_ident (identifier : string) (environment : Environment)
      (st st' : Store) (ident : Identity) :
  SDKFeatureStates.get_or_create_identity identifier environment st = (st', Return ident) ->
  identities_by st' identifier environment = [ident] /\
  identity_identifier ident = identifier /\
  identity_environment ident = environment_id environment /\
  feature_states st' = feature_states st.
Proof.
  unfold SDKFeatureStates.get_or_create_identity.
  destruct (objects_get IdentityModel (identities_by st identifier environment))
    as [found|e] eqn:Hget; intros H.
  - injection H as Hst Hid. subst st' found.
    apply objects_get_in in Hget.
    assert (Hin : In ident (identities_by st identifier environment))
      by (rewrite Hget; left; reflexivity).
    unfold identities_by in Hin. apply filter_In in Hin. destruct Hin as [_ Hb].
    apply andb_true_iff in Hb. destruct Hb as [Hs Hz].
    apply String.eqb_eq in Hs. apply Z.eqb_eq in Hz. auto.
  - destruct e; try discriminate H.
    assert (Hnone : identities_by st identifier environment = []).
    { destruct (identities_by st identifier environment) as [|x [|y l]];
        [reflexivity | discriminate Hget | discriminate Hget]. }
    unfold Identity_objects_create in H. injection H as Hst Hid. subst st' ident.
    split; [|simpl; auto].
    apply (identities_by_snoc st identifier environment); [exact Hnone | reflexivity].
Qed.

(** X3. An SDK look-up discloses nothing of another environment or another
    identity: every FeatureState in its answer is a row of the store, of the
    environment the key names, and either environment-level or of the one
    identity that the store the look-up leaves has for the identifier of the
    request in that environment. *)
Theorem sdk_answers_stay_in_the_environment
        (st : Store) (request : SDKRequest) (identifier : option string)
        (fs : FeatureState) :
  In fs (rows_of (data (snd (handle (SDK request identifier) st)))) ->
  In fs (feature_states st) /\
  exists key environment,
    META_HTTP_X_ENVIRONMENT_KEY request = Some key /\
    environments_by_key st key = [environment] /\
    fs_environment fs = environment_id environment /\
    (fs_identity fs = None \/
     exists i ident,
       truthy identifier = Some i /\
       identities_by (fst (handle (SDK request identifier) st)) i environment = [ident] /\
       identity_identifier ident = i /\
       identity_environment ident = environment_id environment /\
       fs_identity fs = Some (identity_id ident)).
Proof.
  rewrite handle_response, handle_store. unfold SDKFeatureStates.get.
  destruct (META_HTTP_X_ENVIRONMENT_KEY request) as [key|];
    [|intros Hnone; simpl in Hnone; contradiction].
  unfold get_object_or_404.
  destruct (objects_get EnvironmentModel (environments_by_key st key))
    as [environment|e] eqn:Henv;
    [|destruct e; intros Hnone; simpl in Hnone; contradiction].
  apply objects_get_in in Henv.
  destruct (truthy identifier) as [i|].
  - destruct (SDKFeatureStates.get_or_create_identity i environment st)
      as [st1 [ident|e]] eqn:Hget;
      [|destruct e; intros Hnone; simpl in Hnone; contradiction].
    destruct (get_or_create_identity_ident i environment st st1 ident Hget)
      as (Hone & Hi & He & Hs).
    assert (Hst1 : forall o : Outcome Response,
               fst (match GET_feature request with
                    | Some name =>
                        (st1, SDKFeatureStates.get_identity_feature
                                environment ident name st1)
                    | None =>
                        let '(identity_flags, environment_flags) :=
                          get_all_feature_states st1 ident in
                        (st1, Return
                                (mkResponse
                                   (serialized_many SDKFeatureStates.get_serializer
                                      (environment_flags ++ identity_flags))
                                   HTTP_200_OK))
                    end) = st1).
    { intros _. destruct (GET_feature request); reflexivity. }
    rewrite (Hst1 (Raise Http404)). clear Hst1.
    assert (Hidentity :
              forall row, fs_identity row = Some (identity_id ident) ->
                          exists i0 ident0,
                            Some i = Some i0 /\
                            identities_by st1 i0 environment = [ident0] /\
                            identity_identifier ident0 = i0 /\
                            identity_environment ident0 = environment_id environment /\
                            fs_identity row = Some (identity_id ident0)).
    { intros row Hrow. exists i, ident. auto. }
    destruct (GET_feature request) as [name|].
    + cbn [snd]. unfold SDKFeatureStates.get_identity_feature.
      destruct (objects_get FeatureModel _) as [feature|e];
        [|destruct e; intros Hnone; simpl in Hnone; contradiction].
      destruct (objects_get FeatureStateModel
                  (feature_states_by st1 _ _ (Some (identity_id ident))))
        as [found|[m|m| | | | | |]] eqn:Hfound;
        try solve [intros Hnone; simpl in Hnone; contradiction].
      * intros [<- | []]. apply objects_get_in in Hfound.
        assert (Hin : In found (feature_states_by st1 (environment_id environment)
                                  (feature_id feature) (Some (identity_id ident))))
          by (rewrite Hfound; left; reflexivity).
        apply feature_states_by_in in Hin. destruct Hin as (Hin & Hfe & _ & Hfi).
        rewrite Hs in Hin. split; [exact Hin|].
        exists key, environment. repeat split; auto.
      * destruct (objects_get FeatureStateModel
                    (feature_states_by st1 _ _ None))
          as [found|e] eqn:Hfound';
          [|destruct e; intros Hnone; simpl in Hnone; contradiction].
        intros [<- | []]. apply objects_get_in in Hfound'.
        assert (Hin : In found (feature_states_by st1 (environment_id environment)
                                  (feature_id feature) None))
          by (rewrite Hfound'; left; reflexivity).
        apply feature_states_by_in in Hin. destruct Hin as (Hin & Hfe & _ & Hfi).
        rewrite Hs in Hin. split; [exact Hin|].
        exists key, environment. repeat split; auto.
    + unfold get_all_feature_states. cbn [snd handle_exception data rows_of].
      rewrite He. intros Hin. apply in_app_or in Hin.
      destruct Hin as [Hin | Hin].
      * apply filter_In in Hin. destruct Hin as [Hin _].
        apply feature_states_of_in in Hin. destruct Hin as (Hin & Hfe & Hfi).
        rewrite Hs in Hin. split; [exact Hin|].
        exists key, environment. repeat split; auto.
      * apply feature_states_of_in in Hin. destruct Hin as (Hin & Hfe & Hfi).
        rewrite Hs in Hin. split; [exact Hin|].
        exists key, environment. repeat split; auto.
  - cbn [snd fst]. unfold SDKFeatureStates.get_environment_only.
    destruct (GET_feature request) as [name|].
    + destruct (objects_get FeatureModel _) as [feature|e];
        [|destruct e; intros Hnone; simpl in Hnone; contradiction].
      intros Hnone. simpl in Hnone. contradiction.
    + cbn [handle_exception data rows_of]. intros Hin.
      apply feature_states_of_in in Hin. destruct Hin as (Hin & Hfe & Hfi).
      split; [exact Hin|]. exists key, environment. repeat split; auto.
Qed.

Lemma sdk_answers_stay_in_the_environment_witness :
  In Scenario.I (feature_states Scenario.store) /\
  exists key environment,
    META_HTTP_X_ENVIRONMENT_KEY (Scenario.flags (Some "dark_mode")) = Some key /\
    environments_by_key Scenario.store key = [environment] /\
    fs_environment Scenario.I = environment_id environment /\
    (fs_identity Scenario.I = None \/
     exists i ident,
       truthy (Some "user42") = Some i /\
       identities_by
         (fst (handle (SDK (Scenario.flags (Some "dark_mode")) (Some "user42"))
                      Scenario.store)) i environment = [ident] /\
       identity_identifier ident = i /\
       identity_environment ident = environment_id environment /\
       fs_identity Scenario.I = Some (identity_id ident)).
Proof.
  apply (sdk_answers_stay_in_the_environment
           Scenario.store (Scenario.flags (Some "dark_mode")) (Some "user42") Scenario.I).
  simpl. left. reflexivity.
Defined.

(** ** More on the view set *)

(** The environment of the URL, for the whole view set. *)
Lemma get_queryset_environment (kwargs : Kwargs) (st : Store) :
  environments_by_key st (kwargs_environment_api_key kwargs) = [] ->
  FeatureStateViewSet.get_queryset kwargs st = Raise (DoesNotExist EnvironmentModel) /\
  FeatureStateViewSet.get_environment_from_request kwargs st =
  Raise (DoesNotExist EnvironmentModel).
Proof.
  intros Hnone.
  unfold FeatureStateViewSet.get_queryset, FeatureStateViewSet.get_environment_from_request.
  rewrite Hnone. split; reflexivity.
Qed.

(** X4. The view set does not answer an unknown environment with 404, and
    does not create the identity of the URL as the SDK look-up does: with no
    environment of the key every request raises [Environment.DoesNotExist];
    with an identifier that names no identity of the environment an update
    raises [Identity.DoesNotExist], and a create writes nothing and is not
    answered 201.  Nothing is written in either case. *)
Theorem view_set_unknown_environment_or_identity
        (st : Store) (method : Method) (kwargs : Kwargs) (request_data : Dict) :
  (environments_by_key st (kwargs_environment_api_key kwargs) = [] ->
   route method kwargs request_data st = (st, Raise (DoesNotExist EnvironmentModel)))
  /\
  (forall environment identifier,
      environments_by_key st (kwargs_environment_api_key kwargs) = [environment] ->
      truthy (kwargs_identity_identifier kwargs) = Some identifier ->
      identities_by st identifier environment = [] ->
      fst (route method kwargs request_data st) = st /\
      (method <> POST ->
       snd (route method kwargs request_data st) = Raise (DoesNotExist IdentityModel)) /\
      (forall response,
          snd (route method kwargs request_data st) = Return response ->
          status response = HTTP_400_BAD_REQUEST)).
Proof.
  split.
  - intros Hnone.
    destruct (get_queryset_environment kwargs st Hnone) as [Hq He].
    destruct method; cbn [route].
    + unfold FeatureStateViewSet.create. rewrite He. reflexivity.
    + unfold FeatureStateViewSet.update, FeatureStateViewSet.get_object.
      rewrite Hq. reflexivity.
    + unfold FeatureStateViewSet.partial_update, FeatureStateViewSet.update,
        FeatureStateViewSet.get_object.
      rewrite Hq. reflexivity.
  - intros environment identifier Henv Hid Hnone.
    assert (Hupdate : FeatureStateViewSet.update kwargs request_data st =
                      (st, Raise (DoesNotExist IdentityModel))).
    { unfold FeatureStateViewSet.update, FeatureStateViewSet.get_object,
        FeatureStateViewSet.get_queryset.
      rewrite Henv. cbn [objects_get]. rewrite Hid, Hnone. reflexivity. }
    destruct method; cbn [route].
    + unfold FeatureStateViewSet.create, FeatureStateViewSet.get_environment_from_request.
      rewrite Henv. cbn [objects_get].
      destruct (dict_get "feature" _) as [feature|];
        [|split; [reflexivity|]; split; [congruence | intros r H; inversion H; reflexivity]].
      destruct (py_int feature) as [feature_id'|e];
        [|split; [reflexivity|]; split; [congruence | discriminate]].
      destruct (negb _);
        [split; [reflexivity|]; split; [congruence | intros r H; inversion H; reflexivity]|].
      unfold FeatureStateViewSet.add_identity,
        FeatureStateViewSet.get_identity_from_request.
      rewrite Hid, Hnone. cbn [objects_get].
      split; [reflexivity|]; split; [congruence | discriminate].
    + rewrite Hupdate. split; [reflexivity|]; split; [reflexivity | discriminate].
    + unfold FeatureStateViewSet.partial_update. rewrite Hupdate.
      split; [reflexivity|]; split; [reflexivity | discriminate].
Qed.

Lemma view_set_unknown_environment_or_identity_witness :
  route PUT (mkKwargs "zzz999" None 1) [("enabled", JBool true)] Scenario.store =
  (Scenario.store, Raise (DoesNotExist EnvironmentModel))
  /\
  fst (route POST (Scenario.nested (Some "newcomer") 0) [("feature", JInt 2)]
             Scenario.store) = Scenario.store.
Proof.
  split.
  - apply (proj1 (view_set_unknown_environment_or_identity
                    Scenario.store PUT (mkKwargs "zzz999" None 1)
                    [("enabled", JBool true)])).
    reflexivity.
  - apply (proj2 (view_set_unknown_environment_or_identity
                    Scenario.store POST (Scenario.nested (Some "newcomer") 0)
                    [("feature", JInt 2)])
                 Scenario.production "newcomer"); reflexivity.
Defined.

(** X5. An update reaches only the feature states of its own URL: when the
    store has no FeatureState with the primary key of the URL in the
    environment of the URL and under its identity (none, for the
    environment-level route), PUT and PATCH are answered 404 and write
    nothing, whatever the payload. *)
Theorem update_out_of_scope_is_404
        (st : Store) (method : Method) (kwargs : Kwargs) (request_data : Dict)
        (environment : Environment) (scope : option Z) :
  method <> POST ->
  environments_by_key st (kwargs_environment_api_key kwargs) = [environment] ->
  match truthy (kwargs_identity_identifier kwargs) with
  | Some identifier =>
      exists ident, identities_by st identifier environment = [ident] /\
                    scope = Some (identity_id ident)
  | None => scope = None
  end ->
  (forall fs, In fs (feature_states st) ->
              fs_id fs = kwargs_pk kwargs ->
              fs_environment fs = environment_id environment ->
              fs_identity fs <> scope) ->
  handle (Admin method kwargs request_data) st =
  (st, mkResponse (detail "Not found.") HTTP_404_NOT_FOUND).
Proof.
  intros Hmethod Henv Hscope Hout.
  assert (Hq : FeatureStateViewSet.get_queryset kwargs st =
               Return (feature_states_of st (environment_id environment) scope)).
  { unfold FeatureStateViewSet.get_queryset. rewrite Henv. cbn [objects_get].
    destruct (truthy (kwargs_identity_identifier kwargs)) as [identifier|].
    - destruct Hscope as (ident & -> & ->). reflexivity.
    - rewrite Hscope. reflexivity. }
  assert (Hobj : FeatureStateViewSet.get_object kwargs st = Raise Http404).
  { unfold FeatureStateViewSet.get_object. rewrite Hq.
    rewrite filter_all_false; [reflexivity|].
    intros fs Hin. apply feature_states_of_in in Hin. destruct Hin as (Hin & He & Hi).
    apply Z.eqb_neq. intros Hpk. exact (Hout fs Hin Hpk He Hi). }
  unfold handle.
  destruct method; [contradiction | |]; cbn [route];
    unfold FeatureStateViewSet.partial_update, FeatureStateViewSet.update;
    rewrite Hobj; reflexivity.
Qed.

Lemma update_out_of_scope_is_404_witness :
  handle (Admin PATCH (Scenario.nested None 2) [("enabled", JBool false)])
         Scenario.store =
  (Scenario.store, mkResponse (detail "Not found.") HTTP_404_NOT_FOUND).
Proof.
  apply (update_out_of_scope_is_404
           Scenario.store PATCH (Scenario.nested None 2) [("enabled", JBool false)]
           Scenario.production None).
  - discriminate.
  - reflexivity.
  - reflexivity.
  - intros fs [<- | [<- | []]]; simpl; intros Hpk He; discriminate.
Defined.

(** X6. The feature of a create is converted with [int] before anything is
    looked up or written: a reference [int] refuses (a string that is no
    numeral, null, an array) makes the request raise what [int] raised, with
    the store as it was. *)
Theorem create_feature_must_convert
        (st : Store) (kwargs : Kwargs) (request_data : Dict) (environment : Environment)
        (value : JValue) (e : Exn) :
  environments_by_key st (kwargs_environment_api_key kwargs) = [environment] ->
  dict_get "feature" request_data = Some value ->
  py_int value = Raise e ->
  route POST kwargs request_data st = (st, Raise e) /\
  (e = ValueError \/ e = TypeError) /\
  status (snd (handle (Admin POST kwargs request_data) st)) =
  HTTP_500_INTERNAL_SERVER_ERROR.
Proof.
  intros Henv Hvalue Hint.
  assert (Hroute : route POST kwargs request_data st = (st, Raise e)).
  { cbn [route].
    unfold FeatureStateViewSet.create, FeatureStateViewSet.get_environment_from_request.
    rewrite Henv. cbn [objects_get].
    rewrite dict_get_set_other by discriminate. rewrite Hvalue, Hint. reflexivity. }
  assert (He : e = ValueError \/ e = TypeError).
  { destruct value as [|b|z|s|l]; simpl in Hint; try discriminate Hint.
    - inversion Hint. auto.
    - destruct (int_of_str s); inversion Hint. auto.
    - inversion Hint. auto. }
  split; [exact Hroute|]. split; [exact He|].
  unfold handle. rewrite Hroute. destruct He as [-> | ->]; reflexivity.
Qed.

Lemma create_feature_must_convert_witness :
  route POST (Scenario.nested None 0) [("feature", JStr "dark_mode")] Scenario.store =
  (Scenario.store, Raise ValueError) /\
  (ValueError = ValueError \/ ValueError = TypeError) /\
  status (snd (handle (Admin POST (Scenario.nested None 0)
                             [("feature", JStr "dark_mode")])
                      Scenario.store)) = HTTP_500_INTERNAL_SERVER_ERROR.
Proof.
  apply (create_feature_must_convert
           Scenario.store (Scenario.nested None 0) [("feature", JStr "dark_mode")]
           Scenario.production (JStr "dark_mode") ValueError); reflexivity.
Defined.

Lemma dict_get_set_same (key : string) (v : JValue) (d : Dict) :
  dict_get key (dict_set key v d) = Some v.
Proof.
  induction d as [|[k0 v0] d IH]; simpl.
  - rewrite String.eqb_refl. reflexivity.
  - destruct (String.eqb k0 key) eqn:Hk; simpl; rewrite Hk; [reflexivity | exact IH].
Qed.

(** The environment and the identity the serializer lets through are those
    of the payload. *)
Lemma is_valid_reads_the_payload (st : Store) (data : Dict)
      (feature environment : Z) (ident : option Z) (enabled : bool) :
  is_valid st None data false = Some (feature, environment, ident, enabled) ->
  (forall z, dict_get "environment" data = Some (JInt z) -> environment = z) /\
  (forall z, dict_get "identity" data = Some (JInt z) -> ident = Some z).
Proof.
  unfold is_valid. intros H. split; intros z Hz; rewrite Hz in H;
    cbn [run_field related_field option_map negb] in H.
  - destruct (run_field _ _ (dict_get "feature" data)) as [[vf|]|];
      try discriminate H;
      destruct (existsb (Z.eqb z) (map environment_id (environments st)));
      cbn [option_map] in H; try discriminate H;
      destruct (run_field _ _ (dict_get "identity" data)) as [vi|];
      try discriminate H;
      destruct (run_field _ _ (dict_get "enabled" data)) as [vb|];
      try discriminate H;
      cbn [merged validated_feature validated_environment option_map] in H;
      try discriminate H;
      inversion H; reflexivity.
  - destruct (run_field _ _ (dict_get "feature" data)) as [[vf|]|];
      try discriminate H;
      destruct (run_field _ _ (dict_get "environment" data)) as [[ve|]|];
      try discriminate H;
      destruct (existsb (Z.eqb z) (map identity_id (identities st)));
      cbn [option_map] in H; try discriminate H;
      destruct (run_field _ _ (dict_get "enabled" data)) as [vb|];
      try discriminate H;
      cbn [merged validated_feature validated_environment validated_identity
           option_map] in H;
      try discriminate H;
      inversion H; reflexivity.
Qed.

(** X7. What a create writes belongs to the URL it came through: the
    FeatureState of a create answered 201 is of the environment the URL
    names, whatever environment the payload gives, and, when the URL has an
    identifier, of the identity of that identifier in the environment,
    whatever identity the payload gives. *)
Theorem create_is_stamped_with_the_url
        (st st1 : Store) (kwargs : Kwargs) (request_data : Dict) (response : Response) :
  route POST kwargs request_data st = (st1, Return response) ->
  status response = HTTP_201_CREATED ->
  exists environment created,
    environments_by_key st (kwargs_environment_api_key kwargs) = [environment] /\
    response = mkResponse (serialized FeatureStateSerializerBasic created)
                          HTTP_201_CREATED /\
    In created (feature_states st1) /\
    fs_environment created = environment_id environment /\
    forall identifier,
      truthy (kwargs_identity_identifier kwargs) = Some identifier ->
      exists ident, identities_by st identifier environment = [ident] /\
                    fs_identity created = Some (identity_id ident).
Proof.
  cbn [route].
  unfold FeatureStateViewSet.create, FeatureStateViewSet.get_environment_from_request.
  destruct (objects_get EnvironmentModel _) as [environment|e] eqn:Henv;
    [|discriminate].
  apply objects_get_in in Henv.
  destruct (dict_get "feature" _) as [feature|];
    [|intros H Hs; inversion H; subst; discriminate Hs].
  destruct (py_int feature) as [feature_id'|e]; [|discriminate].
  destruct (negb _); [intros H Hs; inversion H; subst; discriminate Hs|].
  unfold FeatureStateViewSet.add_identity, FeatureStateViewSet.get_identity_from_request.
  destruct (truthy (kwargs_identity_identifier kwargs)) as [identifier|].
  - destruct (objects_get IdentityModel _) as [ident|e] eqn:Hident; [|discriminate].
    apply objects_get_in in Hident.
    intros Hcreate Hstatus.
    destruct (create_validated_201 _ st st1 response Hcreate Hstatus)
      as (f & e & i & en & Hvalid & _ & _ & _ & _ & Hs & Hr).
    destruct (is_valid_reads_the_payload st _ f e i en Hvalid) as [He Hi].
    exists environment. eexists. split; [exact Henv|]. split; [exact Hr|].
    split; [rewrite Hs; apply in_or_app; right; left; reflexivity|].
    split.
    + cbn [fs_environment]. apply He.
      rewrite dict_get_set_other by discriminate. apply dict_get_set_same.
    + intros identifier' H. inversion H; subst identifier'.
      exists ident. split; [exact Hident|].
      cbn [fs_identity]. apply Hi. apply dict_get_set_same.
  - intros Hcreate Hstatus.
    destruct (create_validated_201 _ st st1 response Hcreate Hstatus)
      as (f & e & i & en & Hvalid & _ & _ & _ & _ & Hs & Hr).
    destruct (is_valid_reads_the_payload st _ f e i en Hvalid) as [He _].
    exists environment. eexists. split; [exact Henv|]. split; [exact Hr|].
    split; [rewrite Hs; apply in_or_app; right; left; reflexivity|].
    split.
    + cbn [fs_environment]. apply He. apply dict_get_set_same.
    + intros identifier' H. discriminate H.
Qed.

Lemma create_is_stamped_with_the_url_witness :
  exists environment created,
    environments_by_key Scenario.store "abc123" = [environment] /\
    mkResponse (serialized FeatureStateSerializerBasic
                           (mkFeatureState 3 2 1 (Some 1) false))
               HTTP_201_CREATED =
    mkResponse (serialized FeatureStateSerializerBasic created) HTTP_201_CREATED /\
    In created
       (feature_states
          (fst (route POST (Scenario.nested (Some "user42") 0)
                      [("feature", JInt 2); ("environment", JInt 7);
                       ("identity", JNull)]
                      Scenario.store))) /\
    fs_environment created = environment_id environment /\
    forall identifier,
      truthy (Some "user42") = Some identifier ->
      exists ident, identities_by Scenario.store identifier environment = [ident] /\
                    fs_identity created = Some (identity_id ident).
Proof.
  apply (create_is_stamped_with_the_url
           Scenario.store _ (Scenario.nested (Some "user42") 0)
           [("feature", JInt 2); ("environment", JInt 7); ("identity", JNull)]).
  - reflexivity.
  - reflexivity.
Defined.

Lemma assign_value_keeps (instance : FeatureStateValue) (d : FeatureStateValueData) :
  fsv_id (assign_value instance d) = fsv_id instance /\
  fsv_feature_state (assign_value instance d) = fsv_feature_state instance.
Proof. unfold assign_value. destruct (data_value d); split; reflexivity. Qed.

(** Writing a value keeps the primary keys of the value rows, and, where
    these are unique, the FeatureState each row points to. *)
Lemma update_feature_state_value_columns (instance : FeatureStateValue) (value : JValue)
      (feature_state : FeatureState) (st : Store) :
  let st' := fst (FeatureStateViewSet.update_feature_state_value
                    instance value feature_state st) in
  map fsv_id (feature_state_values st') = map fsv_id (feature_state_values st) /\
  (NoDup (map fsv_id (feature_state_values st)) ->
   In instance (feature_state_values st) ->
   map fsv_feature_state (feature_state_values st') =
   map fsv_feature_state (feature_state_values st)).
Proof.
  unfold FeatureStateViewSet.update_feature_state_value.
  destruct (value_is_valid _); [|simpl; auto].
  cbn [fst value_save feature_state_values]. split.
  - rewrite map_map. apply map_ext. intros v.
    destruct (fsv_id v =? fsv_id instance) eqn:Hv; [|reflexivity].
    apply Z.eqb_eq in Hv. rewrite (proj1 (assign_value_keeps _ _)). congruence.
  - intros Hnd Hin. rewrite map_map. apply map_ext_in. intros v Hv.
    destruct (fsv_id v =? fsv_id instance) eqn:Hid; [|reflexivity].
    apply Z.eqb_eq in Hid. rewrite (proj2 (assign_value_keeps _ _)).
    f_equal. symmetry.
    apply (NoDup_map_in_inj fsv_id (feature_state_values st)); assumption.
Qed.

Lemma feature_state_value_of_in (st : Store) (fs : FeatureState)
      (instance : FeatureStateValue) :
  feature_state_value_of st fs = Return instance ->
  In instance (feature_state_values st) /\ fsv_feature_state instance = fs_id fs.
Proof.
  unfold feature_state_value_of. intros H. apply objects_get_in in H.
  assert (Hin : In instance (filter (fun v => fsv_feature_state v =? fs_id fs)
                                    (feature_state_values st)))
    by (rewrite H; left; reflexivity).
  apply filter_In in Hin. destruct Hin as [Hin Hb]. apply Z.eqb_eq in Hb. auto.
Qed.

Lemma update_value_columns (fs : FeatureState) (data : Dict) (st : Store) :
  let st' := fst (FeatureStateViewSet.update_value fs data st) in
  map fsv_id (feature_state_values st') = map fsv_id (feature_state_values st) /\
  (NoDup (map fsv_id (feature_state_values st)) ->
   map fsv_feature_state (feature_state_values st') =
   map fsv_feature_state (feature_state_values st)).
Proof.
  unfold FeatureStateViewSet.update_value.
  destruct (dict_get "feature_state_value" data) as [value|]; [|simpl; auto].
  destruct (feature_state_value_of st fs) as [instance|e] eqn:Hinst; [|simpl; auto].
  destruct (feature_state_value_of_in st fs instance Hinst) as [Hin _].
  pose proof (update_feature_state_value_columns instance value fs st) as Hc.
  destruct (FeatureStateViewSet.update_feature_state_value instance value fs st)
    as [st1 [v|r]]; cbn [fst] in Hc |- *; destruct Hc as [Hids Howners]; auto.
Qed.

(** What an update does to the columns of keys. *)
Lemma update_columns (kwargs : Kwargs) (request_data : Dict) (st : Store) :
  let st' := fst (FeatureStateViewSet.update kwargs request_data st) in
  map fs_id (feature_states st') = map fs_id (feature_states st) /\
  map fsv_id (feature_state_values st') = map fsv_id (feature_state_values st) /\
  (NoDup (map fsv_id (feature_state_values st)) ->
   map fsv_feature_state (feature_state_values st') =
   map fsv_feature_state (feature_state_values st)).
Proof.
  cbv zeta. split.
  - pose proof (update_feature_states kwargs request_data st) as Hcases.
    cbv zeta in Hcases.
    destruct Hcases
      as [-> | (fs & st1 & f & e & i & en & _ & _ & _ & ->)]; [reflexivity|].
    apply rewrite_row_id. reflexivity.
  - unfold FeatureStateViewSet.update.
    destruct (FeatureStateViewSet.get_object kwargs st) as [fs|e]; [|simpl; auto].
    pose proof (update_value_columns fs request_data st) as Hc.
    destruct (FeatureStateViewSet.update_value fs request_data st) as [st1 [data|e]];
      cbn [fst] in Hc; [|exact Hc].
    destruct (is_valid st1 (Some fs) data true) as [[[[f e] i] en]|]; [|exact Hc].
    unfold save_instance. destruct (violates_unique _ _ st1); exact Hc.
Qed.

(** X8. An update creates and deletes nothing: after PUT or PATCH the
    feature states and the value rows have the primary keys they had, in the
    same order, and the environments, features and identities are as they
    were; an answer that is not an error carries the FeatureState with the
    primary key of the URL. *)
Theorem update_creates_and_deletes_nothing
        (st : Store) (method : Method) (kwargs : Kwargs) (request_data : Dict) :
  method <> POST ->
  let st' := fst (route method kwargs request_data st) in
  map fs_id (feature_states st') = map fs_id (feature_states st) /\
  map fsv_id (feature_state_values st') = map fsv_id (feature_state_values st) /\
  environments st' = environments st /\ features st' = features st /\
  identities st' = identities st /\
  forall response,
    snd (route method kwargs request_data st) = Return response ->
    exists fs, response = mkResponse (serialized FeatureStateSerializerBasic fs)
                                     HTTP_200_OK /\
               fs_id fs = kwargs_pk kwargs /\ In fs (feature_states st').
Proof.
  intros Hmethod. cbv zeta.
  destruct (admin_keeps_tables method kwargs request_data st) as (He & Hf & Hi).
  assert (Hroute : route method kwargs request_data st =
                   FeatureStateViewSet.update kwargs request_data st).
  { destruct method; [contradiction | reflexivity | reflexivity]. }
  rewrite Hroute in *.
  destruct (update_columns kwargs request_data st) as (Hids & Hvids & _).
  do 5 (split; [assumption|]).
  unfold FeatureStateViewSet.update.
  destruct (FeatureStateViewSet.get_object kwargs st) as [fs|e] eqn:Hobj;
    [|discriminate].
  destruct (get_object_in kwargs st fs Hobj) as [Hin Hpk].
  pose proof (update_value_tables fs request_data st) as Ht.
  destruct (FeatureStateViewSet.update_value fs request_data st) as [st1 [data|e]];
    [|discriminate].
  cbn [fst] in Ht. destruct Ht as (_ & _ & _ & Hfs).
  destruct (is_valid st1 (Some fs) data true) as [[[[f e] i] en]|]; [|discriminate].
  unfold save_instance.
  destruct (violates_unique _ _ st1); [discriminate|].
  unfold update_row. cbn [fst snd feature_states].
  intros response H. inversion H; subst response.
  eexists. split; [reflexivity|]. split; [exact Hpk|].
  rewrite Hfs. apply in_map_iff. exists fs. split; [|exact Hin].
  rewrite Z.eqb_refl. reflexivity.
Qed.

Lemma update_creates_and_deletes_nothing_witness :
  map fs_id (feature_states
               (fst (route PUT (Scenario.nested (Some "user42") 2)
                           [("enabled", JBool false); ("feature_state_value", JStr "red")]
                           Scenario.store))) =
  map fs_id (feature_states Scenario.store).
Proof.
  apply (update_creates_and_deletes_nothing
           Scenario.store PUT (Scenario.nested (Some "user42") 2)
           [("enabled", JBool false); ("feature_state_value", JStr "red")]).
  discriminate.
Defined.

(** ** One value row per FeatureState *)

Lemma sdk_get_values (request : SDKRequest) (identifier : option string) (st : Store) :
  feature_state_values (fst (SDKFeatureStates.get request identifier st)) =
  feature_state_values st.
Proof.
  unfold SDKFeatureStates.get.
  destruct (META_HTTP_X_ENVIRONMENT_KEY request) as [key|]; [|reflexivity].
  destruct (get_object_or_404 EnvironmentModel _) as [environment|e]; [|reflexivity].
  destruct (truthy identifier) as [i|]; [|reflexivity].
  pose proof (get_or_create_identity_store i environment st) as Hst.
  destruct (SDKFeatureStates.get_or_create_identity i environment st) as [st1 [ident|e]].
  - destruct (GET_feature request); cbn [fst get_all_feature_states];
      destruct Hst as [-> | (_ & _ & ->)]; reflexivity.
  - destruct Hst as [-> | (_ & _ & ->)]; reflexivity.
Qed.

(** The columns of keys after a create: as before, or each with the key of
    the new row at its end. *)
Lemma create_columns (kwargs : Kwargs) (request_data : Dict) (st : Store) :
  NoDup (map fsv_id (feature_state_values st)) ->
  let st' := fst (FeatureStateViewSet.create kwargs request_data st) in
  (map fs_id (feature_states st') = map fs_id (feature_states st) /\
   map fsv_id (feature_state_values st') = map fsv_id (feature_state_values st) /\
   map fsv_feature_state (feature_state_values st') =
   map fsv_feature_state (feature_state_values st))
  \/
  (map fs_id (feature_states st') =
   map fs_id (feature_states st) ++ [next_id (map fs_id (feature_states st))] /\
   map fsv_id (feature_state_values st') =
   map fsv_id (feature_state_values st) ++
   [next_id (map fsv_id (feature_state_values st))] /\
   map fsv_feature_state (feature_state_values st') =
   map fsv_feature_state (feature_state_values st) ++
   [next_id (map fs_id (feature_states st))]).
Proof.
  intros Hnd. cbv zeta.
  destruct (create_ext kwargs request_data st st eq_refl eq_refl eq_refl)
    as [(o & H1 & _ & _) | (payload & H1 & _)]; rewrite H1; [left; auto|].
  unfold FeatureStateViewSet.create_validated.
  destruct (is_valid st None payload false) as [[[[f e] i] en]|]; [|left; auto].
  unfold save_new. destruct (violates_unique _ _ st); [left; auto|].
  right. unfold insert_row.
  set (fs := mkFeatureState (next_id (map fs_id (feature_states st))) f e i en).
  set (v := mkFeatureStateValue (next_id (map fsv_id (feature_state_values st)))
                                (fs_id fs) NONE None None None).
  set (st1 := mkStore (environments st) (features st) (identities st)
                      (feature_states st ++ [fs]) (feature_state_values st ++ [v])).
  assert (Hst1 : map fs_id (feature_states st1) =
                 map fs_id (feature_states st) ++ [next_id (map fs_id (feature_states st))]
                 /\
                 map fsv_id (feature_state_values st1) =
                 map fsv_id (feature_state_values st) ++
                 [next_id (map fsv_id (feature_state_values st))] /\
                 map fsv_feature_state (feature_state_values st1) =
                 map fsv_feature_state (feature_state_values st) ++
                 [next_id (map fs_id (feature_states st))]).
  { unfold st1. cbn [feature_states feature_state_values]. rewrite !map_app.
    repeat split; reflexivity. }
  destruct (dict_get "feature_state_value" payload) as [value|]; [|exact Hst1].
  destruct (feature_state_value_of st1 fs) as [instance|err] eqn:Hinst; [|exact Hst1].
  destruct (feature_state_value_of_in st1 fs instance Hinst) as [Hin _].
  pose proof (update_feature_state_value_columns instance value fs st1) as Hc.
  pose proof (update_feature_state_value_tables instance value fs st1) as Ht.
  destruct (FeatureStateViewSet.update_feature_state_value instance value fs st1)
    as [st2 r].
  cbn [fst] in Hc, Ht |- *. destruct Hc as [Hids Howners].
  destruct Ht as (_ & _ & _ & Hfs). destruct Hst1 as (H1' & H2' & H3').
  rewrite Hfs, Hids, Howners; [auto | | exact Hin].
  rewrite H2'. apply NoDup_snoc; [exact Hnd|].
  intros Hfresh. pose proof (next_id_fresh _ _ Hfresh). lia.
Qed.

Lemma handle_keeps_value_rows (r : Request) (st : Store) :
  unique_value_rows st -> values_owned st -> every_state_has_a_value st ->
  unique_value_rows (fst (handle r st)) /\ values_owned (fst (handle r st)) /\
  every_state_has_a_value (fst (handle r st)).
Proof.
  intros [Hids Howners] Hown Hhas. rewrite handle_store.
  assert (Hcolumns :
            forall st',
              map fs_id (feature_states st') = map fs_id (feature_states st) ->
              map fsv_id (feature_state_values st') =
              map fsv_id (feature_state_values st) ->
              map fsv_feature_state (feature_state_values st') =
              map fsv_feature_state (feature_state_values st) ->
              unique_value_rows st' /\ values_owned st' /\ every_state_has_a_value st').
  { intros st' Hf Hv Ho. unfold unique_value_rows, values_owned, every_state_has_a_value.
    rewrite Hv, Ho, Hf. repeat split; try assumption.
    - intros v Hin. apply (in_map fsv_feature_state) in Hin. rewrite Ho in Hin.
      apply in_map_iff in Hin. destruct Hin as (v0 & <- & Hv0). apply Hown. exact Hv0.
    - intros fs Hin. apply (in_map fs_id) in Hin. rewrite Hf in Hin.
      apply in_map_iff in Hin. destruct Hin as (fs0 & <- & Hfs0). apply Hhas. exact Hfs0. }
  assert (Hupdate : forall kwargs request_data,
             let st' := fst (FeatureStateViewSet.update kwargs request_data st) in
             unique_value_rows st' /\ values_owned st' /\ every_state_has_a_value st').
  { intros kwargs request_data.
    destruct (update_columns kwargs request_data st) as (Hf & Hv & Ho).
    apply Hcolumns; auto. }
  destruct r as [[| |] kwargs request_data | request identifier].
  - cbn [route].
    destruct (create_columns kwargs request_data st Hids)
      as [(Hf & Hv & Ho) | (Hf & Hv & Ho)]; [apply Hcolumns; assumption|].
    unfold unique_value_rows, values_owned, every_state_has_a_value.
    rewrite Hv, Ho, Hf. repeat split.
    + apply NoDup_snoc; [exact Hids|].
      intros Hfresh. pose proof (next_id_fresh _ _ Hfresh). lia.
    + apply NoDup_snoc; [exact Howners|].
      intros Hin. apply in_map_iff in Hin. destruct Hin as (v & Hv0 & Hvin).
      pose proof (Hown v Hvin) as Hfs. rewrite Hv0 in Hfs.
      pose proof (next_id_fresh _ _ Hfs). lia.
    + intros v Hin. apply (in_map fsv_feature_state) in Hin. rewrite Ho in Hin.
      apply in_app_or in Hin. apply in_or_app.
      destruct Hin as [Hin | Hin]; [left | right; exact Hin].
      apply in_map_iff in Hin. destruct Hin as (v0 & <- & Hv0). apply Hown. exact Hv0.
    + intros fs Hin. apply (in_map fs_id) in Hin. rewrite Hf in Hin.
      apply in_app_or in Hin. apply in_or_app.
      destruct Hin as [Hin | Hin]; [left | right; exact Hin].
      apply in_map_iff in Hin. destruct Hin as (fs0 & <- & Hfs0). apply Hhas. exact Hfs0.
  - apply Hupdate.
  - apply Hupdate.
  - apply Hcolumns.
    + rewrite sdk_get_feature_states. reflexivity.
    + rewrite sdk_get_values. reflexivity.
    + rewrite sdk_get_values. reflexivity.
Qed.

(** X9. A FeatureState keeps exactly one value row: where value rows have
    unique keys, point each to a FeatureState of its own and no FeatureState
    is without one, this stays so in every store that requests lead to, and
    [feature_state.feature_state_value], which create and update read,
    finds its row for every FeatureState. *)
Theorem value_rows_stay_one_per_state (st0 st : Store) :
  unique_value_rows st0 -> values_owned st0 -> every_state_has_a_value st0 ->
  reachable st0 st ->
  unique_value_rows st /\ values_owned st /\ every_state_has_a_value st /\
  forall fs, In fs (feature_states st) ->
             exists v, feature_state_value_of st fs = Return v /\
                       fsv_feature_state v = fs_id fs.
Proof.
  intros Hu Hown Hhas Hreach.
  assert (Hinv : unique_value_rows st /\ values_owned st /\ every_state_has_a_value st).
  { induction Hreach as [|st r _ IH]; [auto|].
    destruct IH as (H1 & H2 & H3). apply handle_keeps_value_rows; assumption. }
  destruct Hinv as ([Hids Howners] & Hown' & Hhas').
  repeat split; try assumption.
  intros fs Hin. pose proof (Hhas' fs Hin) as Hv.
  apply in_map_iff in Hv. destruct Hv as (v & Hv & Hvin).
  exists v. split; [|exact Hv].
  unfold feature_state_value_of.
  rewrite (filter_unique_in fsv_feature_state _ _ v Howners Hvin).
  - reflexivity.
  - apply Z.eqb_eq. exact Hv.
  - intros b _ Hb. apply Z.eqb_eq in Hb. congruence.
Qed.

Lemma value_rows_stay_one_per_state_witness :
  unique_value_rows
    (fst (handle (Admin POST (Scenario.nested None 0)
                        [("feature", JInt 2); ("feature_state_value", JInt 5)])
                 Scenario.store)) /\
  values_owned
    (fst (handle (Admin POST (Scenario.nested None 0)
                        [("feature", JInt 2); ("feature_state_value", JInt 5)])
                 Scenario.store)) /\
  every_state_has_a_value
    (fst (handle (Admin POST (Scenario.nested None 0)
                        [("feature", JInt 2); ("feature_state_value", JInt 5)])
                 Scenario.store)) /\
  forall fs,
    In fs (feature_states
             (fst (handle (Admin POST (Scenario.nested None 0)
                                 [("feature", JInt 2); ("feature_state_value", JInt 5)])
                          Scenario.store))) ->
    exists v,
      feature_state_value_of
        (fst (handle (Admin POST (Scenario.nested None 0)
                            [("feature", JInt 2); ("feature_state_value", JInt 5)])
                     Scenario.store)) fs = Return v /\
      fsv_feature_state v = fs_id fs.
Proof.
  apply (value_rows_stay_one_per_state Scenario.store).
  - split; simpl.
    + constructor; [intros [H | []]; discriminate|].
      constructor; [intros [] | constructor].
    + constructor; [intros [H | []]; discriminate|].
      constructor; [intros [] | constructor].
  - intros v [<- | [<- | []]]; simpl; auto.
  - intros fs [<- | [<- | []]]; simpl; auto.
  - apply reachable_request. apply reachable_start.
Defined.

(** ** The routes of the SDK *)

Lemma strip_prefix_app (text s rest : string) :
  strip_prefix text s = Some rest <-> s = String.append text rest.
Proof.
  revert s. induction text as [|a text IH]; intros s; simpl.
  - split; [intros H; inversion H; reflexivity | intros ->; reflexivity].
  - destruct s as [|b s]; [split; discriminate|].
    destruct (Ascii.eqb a b) eqn:Hab.
    + apply Ascii.eqb_eq in Hab. subst b. rewrite IH.
      split; [intros ->; reflexivity | intros H; inversion H; reflexivity].
    + apply Ascii.eqb_neq in Hab.
      split; [discriminate | intros H; inversion H; congruence].
Qed.

Lemma word_run_spec (s w rest : string) :
  word_run s = (w, rest) ->
  s = String.append w rest /\ all_chars is_word w = true /\ no_word_ahead rest = true.
Proof.
  revert w rest. induction s as [|c s IH]; intros w rest; simpl.
  - intros H. inversion H. auto.
  - destruct (is_word c) eqn:Hc.
    + destruct (word_run s) as [w' rest'] eqn:Hrun. intros H. inversion H; subst.
      destruct (IH w' rest eq_refl) as (Hs & Hw & Hr).
      simpl. rewrite Hc, Hw, <- Hs. auto.
    + intros H. inversion H; subst. simpl. rewrite Hc. auto.
Qed.

Lemma word_run_app (w rest : string) :
  all_chars is_word w = true -> no_word_ahead rest = true ->
  word_run (String.append w rest) = (w, rest).
Proof.
  intros Hw Hr. induction w as [|c w IH]; simpl in *.
  - destruct rest as [|c rest]; [reflexivity|]. simpl in *.
    destruct (is_word c); [discriminate | reflexivity].
  - apply andb_true_iff in Hw. destruct Hw as [Hc Hw].
    rewrite Hc, (IH Hw). reflexivity.
Qed.

(** X10. The identifier the resolver hands to [SDKFeatureStates] is never
    empty and holds word characters only: it is the longest run of word
    characters after [v1/flags/], and a path it is cut from is served by no
    other pattern (paths being ASCII).  The view's test of its identifier
    thus tells the two routes apart. *)
Theorem resolved_identifier_is_a_word (path w : string) :
  ascii_only path = true ->
  In (call_SDKFeatureStates (Some w)) (resolve path) ->
  w <> EmptyString /\ all_chars is_word w = true /\
  truthy (Some w) = Some w /\
  resolve path = [call_SDKFeatureStates (Some w)] /\
  exists rest,
    path = String.append "v1/flags/" (String.append w rest) /\
    no_word_ahead rest = true.
Proof.
  intros _. unfold resolve.
  destruct (strip_prefix "v1/" path) as [rest'|] eqn:Hv1; [|intros []].
  apply strip_prefix_app in Hv1. subst path.
  destruct (strip_prefix "flags/" rest') as [r|] eqn:Hflags.
  - apply strip_prefix_app in Hflags. subst rest'.
    cbn -[word_run].
    destruct (word_run r) as [w' r'] eqn:Hrun.
    destruct (word_run_spec r w' r' Hrun) as (Hr & Hw & Hahead).
    destruct w' as [|c w'].
    + intros [H | []]. discriminate H.
    + intros [H | []]. inversion H; subst w.
      split; [discriminate|]. split; [exact Hw|]. split; [reflexivity|].
      split; [reflexivity|].
      exists r'. rewrite Hr. split; [reflexivity | exact Hahead].
  - unfold attempts, v1_patterns, match_pattern. rewrite Hflags.
    repeat match goal with
           | |- context [strip_prefix ?t rest'] => destruct (strip_prefix t rest')
           end;
      simpl; intuition discriminate.
Qed.

Lemma resolved_identifier_is_a_word_witness :
  "user" <> EmptyString /\ all_chars is_word "user" = true /\
  truthy (Some "user") = Some "user" /\
  resolve "v1/flags/user-42" = [call_SDKFeatureStates (Some "user")] /\
  exists rest,
    "v1/flags/user-42" = String.append "v1/flags/" (String.append "user" rest) /\
    no_word_ahead rest = true.
Proof.
  apply (resolved_identifier_is_a_word "v1/flags/user-42" "user").
  - reflexivity.
  - simpl. left. reflexivity.
Defined.

(** X11. Every path under [v1/flags/] is served by [SDKFeatureStates], and by
    nothing else: with the run of word characters that follows as identifier,
    cut at the first character that is none, and without identifier when no
    word character follows.  The patterns are open at the end, so what comes
    after the identifier is not looked at. *)
Theorem flags_paths_are_served_by_the_SDK (w rest : string) :
  all_chars is_word w = true ->
  ascii_only rest = true ->
  no_word_ahead rest = true ->
  resolve (String.append "v1/flags/" (String.append w rest)) =
  [call_SDKFeatureStates (match w with EmptyString => None | _ => Some w end)].
Proof.
  intros Hw _ Hrest. unfold resolve. cbn -[word_run String.append].
  change (String.append "v1/flags/" (String.append w rest))
    with (String "v" (String "1" (String "/" (String "f" (String "l" (String "a"
            (String "g" (String "s" (String "/" (String.append w rest)))))))))).
  cbn -[word_run String.append].
  rewrite (word_run_app w rest Hw Hrest).
  destruct w as [|c w]; reflexivity.
Qed.

Lemma flags_paths_are_served_by_the_SDK_witness :
  resolve (String.append "v1/flags/" (String.append "user42" "/and/more")) =
  [call_SDKFeatureStates (Some "user42")].
Proof.
  apply (flags_paths_are_served_by_the_SDK "user42" "/and/more"); reflexivity.
Defined.

(** ** The user manager *)

Lemma dict_get_setdefault_same (key : string) (v : JValue) (d : Dict) :
  dict_get key (Users.setdefault key v d) =
  Some match dict_get key d with Some x => x | None => v end.
Proof.
  unfold Users.setdefault. destruct (dict_get key d) as [x|] eqn:Hd.
  - exact Hd.
  - apply dict_get_set_same.
Qed.

Lemma dict_get_setdefault_other (key k : string) (v : JValue) (d : Dict) :
  k <> key -> dict_get key (Users.setdefault k v d) = dict_get key d.
Proof.
  intros Hne. unfold Users.setdefault. destruct (dict_get k d); [reflexivity|].
  apply dict_get_set_other. exact Hne.
Qed.

Section UserManagerFacts.

Variables (Database User : Type).
Variable normalize_email : string -> string.
Variable build_and_save :
  string -> option string -> Dict -> Database -> Database * Users.Result User.

(** X12. [create_superuser] never hands the model a user that is not both
    staff and superuser: it raises [ValueError], leaving the database alone,
    or builds and saves, under the normalized email, a user whose [is_staff]
    and [is_superuser] are [True] and whose other fields are the caller's. *)
Theorem superuser_is_staff_and_superuser
        (email password : option string) (extra_fields : Dict) (db : Database) :
  (exists message,
      Users.create_superuser Database User normalize_email build_and_save
                             email password extra_fields db =
      (db, Users.Fail (Users.ValueError_with message)))
  \/
  (exists address fields,
      email = Some address /\ address <> EmptyString /\
      dict_get "is_staff" fields = Some (JBool true) /\
      dict_get "is_superuser" fields = Some (JBool true) /\
      (forall key, key <> "is_staff" -> key <> "is_superuser" ->
                   dict_get key fields = dict_get key extra_fields) /\
      Users.create_superuser Database User normalize_email build_and_save
                             email password extra_fields db =
      build_and_save (normalize_email address) password fields db).
Proof.
  unfold Users.create_superuser.
  set (fields := Users.setdefault "is_superuser" (JBool true)
                   (Users.setdefault "is_staff" (JBool true) extra_fields)).
  destruct (Users.is_not_True (dict_get "is_staff" fields)) eqn:Hstaff;
    [left; eexists; reflexivity|].
  destruct (Users.is_not_True (dict_get "is_superuser" fields)) eqn:Hsuper;
    [left; eexists; reflexivity|].
  unfold Users._create_user.
  destruct email as [[|c address]|]; [left; eexists; reflexivity | | left; eexists; reflexivity].
  right. exists (String c address), fields.
  split; [reflexivity|]. split; [discriminate|].
  split; [|split; [|split; [|reflexivity]]].
  - destruct (dict_get "is_staff" fields) as [[|[|]| | |]|]; try discriminate Hstaff.
    reflexivity.
  - destruct (dict_get "is_superuser" fields) as [[|[|]| | |]|]; try discriminate Hsuper.
    reflexivity.
  - intros key H1 H2. unfold fields.
    rewrite !dict_get_setdefault_other by congruence. reflexivity.
Qed.

(** X13. [create_user] defaults the flags and does not force them: an
    [is_staff] or [is_superuser] the caller gives reaches the model as given,
    one left out is [False]; an email that is missing or empty is refused with
    [ValueError] before the database is touched. *)
Theorem create_user_defaults_the_flags
        (email password : option string) (extra_fields : Dict) (db : Database) :
  match email with
  | None | Some EmptyString =>
      Users.create_user Database User normalize_email build_and_save
                        email password extra_fields db =
      (db, Users.Fail (Users.ValueError_with "The given email must be set"))
  | Some address =>
      exists fields,
        Users.create_user Database User normalize_email build_and_save
                          email password extra_fields db =
        build_and_save (normalize_email address) password fields db /\
        dict_get "is_staff" fields =
        Some match dict_get "is_staff" extra_fields with
             | Some given => given
             | None => JBool false
             end /\
        dict_get "is_superuser" fields =
        Some match dict_get "is_superuser" extra_fields with
             | Some given => given
             | None => JBool false
             end /\
        forall key, key <> "is_staff" -> key <> "is_superuser" ->
                    dict_get key fields = dict_get key extra_fields
  end.
Proof.
  unfold Users.create_user, Users._create_user.
  destruct email as [[|c address]|]; [reflexivity | | reflexivity].
  eexists. split; [reflexivity|]. split; [|split].
  - rewrite dict_get_setdefault_other by discriminate.
    apply dict_get_setdefault_same.
  - rewrite dict_get_setdefault_same.
    rewrite dict_get_setdefault_other by discriminate. reflexivity.
  - intros key H1 H2. rewrite !dict_get_setdefault_other by congruence. reflexivity.
Qed.

End UserManagerFacts.

(** ** Invites *)

Section InviteFacts.

Variable render : string -> list (string * string) -> string.
Variable delivers : Users.EmailMultiAlternatives -> bool.

(** The message of an invite has one address, that of the invite: it has a
    recipient unless the invite has no address. *)
Lemma invite_recipients (self : Users.Invite) (org_name : string) :
  Users.recipients (Users.invite_message render self org_name) =
  if String.eqb (Users.invite_email self) "" then [] else [Users.invite_email self].
Proof.
  unfold Users.recipients, Users.invite_message. cbn [Users.mail_to filter].
  destruct (String.eqb (Users.invite_email self) ""); reflexivity.
Qed.

(** Sending the mail touches the outbox only. *)
Lemma send_invite_mail_tables (self : Users.Invite) (w : Users.World) :
  Users.organisations (fst (Users.send_invite_mail render delivers self w)) =
  Users.organisations w /\
  Users.invites (fst (Users.send_invite_mail render delivers self w)) = Users.invites w.
Proof.
  unfold Users.send_invite_mail, Users.send.
  destruct (filter _ (Users.organisations w)); [split; reflexivity|].
  destruct (Users.recipients _); [split; reflexivity|].
  destruct (delivers _); split; reflexivity.
Qed.

(** The rows after [save]: as they were, or what [Model.save] made of them. *)
Lemma save_rows (self : Users.Invite) (w : Users.World) :
  (snd (Users.save render delivers self w) <> Users.Ok tt /\
   Users.invites (fst (Users.save render delivers self w)) = Users.invites w)
  \/
  (snd (Users.save render delivers self w) = Users.Ok tt /\
   Users.organisations (fst (Users.save render delivers self w)) =
   Users.organisations w /\
   Users.Model_save self (Users.invites w) =
   Users.Ok (Users.invites (fst (Users.save render delivers self w)))).
Proof.
  unfold Users.save.
  destruct (send_invite_mail_tables self w) as [Horg Hinv].
  destruct (Users.send_invite_mail render delivers self w) as [w1 [u|f]];
    cbn [fst snd] in *.
  - rewrite Hinv.
    destruct (Users.Model_save self (Users.invites w)) as [rows|f]; cbn [fst snd].
    + right. split; [reflexivity|]. split; [exact Horg | reflexivity].
    + left. split; [discriminate | exact Hinv].
  - left. split; [discriminate | exact Hinv].
Qed.

(** X14. [Invite.save] sends the mail first and writes after: the
    organisations are never touched; a failure to find the organisation or to
    deliver leaves everything as it was; otherwise the mail, to the address
    of the invite alone and quoting [frontend_base_url] followed by the hash,
    has been handed over before the row is written, and stays sent when a
    uniqueness constraint then refuses the row.  The one row written without
    a mail is that of an invite with no address, for which [send] finds
    nobody to send to and raises nothing. *)
Theorem invite_mail_goes_out_before_the_row (self : Users.Invite) (w : Users.World) :
  let w' := fst (Users.save render delivers self w) in
  let result := snd (Users.save render delivers self w) in
  Users.organisations w' = Users.organisations w /\
  (result = Users.Fail Users.Organisation_DoesNotExist \/
   result = Users.Fail Users.SMTPException -> w' = w) /\
  (result = Users.Fail Users.Organisation_DoesNotExist \/
   result = Users.Fail Users.SMTPException \/
   exists organisation message,
     In organisation (Users.organisations w) /\
     Users.organisation_id organisation = Users.invite_organisation self /\
     message = Users.invite_message render self (Users.organisation_name organisation) /\
     Users.mail_to message = [Users.invite_email self] /\
     Users.mail_body message =
     render "users/invite_to_org.txt"
            [("org_name", Users.organisation_name organisation);
             ("invite_url", String.append (Users.invite_frontend_base_url self)
                                          (Users.invite_hash self))] /\
     (Users.invite_email self = "" /\ Users.outbox w' = Users.outbox w \/
      Users.invite_email self <> "" /\ delivers message = true /\
      Users.outbox w' = Users.outbox w ++ [message]) /\
     (result = Users.Fail Users.IntegrityError /\ Users.invites w' = Users.invites w \/
      result = Users.Ok tt /\
      Users.Model_save self (Users.invites w) = Users.Ok (Users.invites w'))).
Proof.
  cbv zeta. unfold Users.save, Users.send_invite_mail.
  destruct (filter _ (Users.organisations w)) as [|organisation others] eqn:Hfilter.
  - cbn [fst snd]. split; [reflexivity|]. split; [reflexivity|]. left. reflexivity.
  - assert (Horg : In organisation (Users.organisations w) /\
                   Users.organisation_id organisation = Users.invite_organisation self).
    { assert (Hin : In organisation
                       (filter (fun o => Users.organisation_id o =?
                                         Users.invite_organisation self)
                               (Users.organisations w)))
        by (rewrite Hfilter; left; reflexivity).
      apply filter_In in Hin. destruct Hin as [Hin Hb]. apply Z.eqb_eq in Hb. auto. }
    destruct Horg as [Hin Hid].
    assert (Hsaved : forall f, Users.Model_save self (Users.invites w) = Users.Fail f ->
                               f = Users.IntegrityError).
    { intros f Hsave. unfold Users.Model_save in Hsave.
      destruct (Users.clashes self (Users.invites w));
        [inversion Hsave; reflexivity|].
      destruct (Users.invite_pk self); [|discriminate Hsave].
      destruct (existsb _ (Users.invites w)); discriminate Hsave. }
    unfold Users.send. rewrite invite_recipients.
    destruct (String.eqb (Users.invite_email self) "") eqn:Hempty.
    + apply String.eqb_eq in Hempty.
      destruct (Users.Model_save self (Users.invites w)) as [rows|f] eqn:Hsave;
        cbn [fst snd Users.organisations Users.invites Users.outbox].
      * split; [reflexivity|]. split; [intros [H | H]; discriminate H|].
        right. right. exists organisation. eexists.
        do 5 (split; [eassumption || reflexivity|]).
        split; [left; split; [exact Hempty | reflexivity]|].
        right. split; reflexivity.
      * rewrite (Hsaved f eq_refl).
        split; [reflexivity|]. split; [intros [H | H]; discriminate H|].
        right. right. exists organisation. eexists.
        do 5 (split; [eassumption || reflexivity|]).
        split; [left; split; [exact Hempty | reflexivity]|].
        left. split; reflexivity.
    + apply String.eqb_neq in Hempty.
      destruct (delivers (Users.invite_message render self
                            (Users.organisation_name organisation))) eqn:Hdelivers.
      * cbn [Users.invites Users.organisations Users.outbox].
        destruct (Users.Model_save self (Users.invites w)) as [rows|f] eqn:Hsave;
          cbn [fst snd Users.organisations Users.invites Users.outbox].
        -- split; [reflexivity|]. split; [intros [H | H]; discriminate H|].
           right. right. exists organisation. eexists.
           do 5 (split; [eassumption || reflexivity|]).
           split; [right; split; [exact Hempty|]; split; [exact Hdelivers | reflexivity]|].
           right. split; reflexivity.
        -- rewrite (Hsaved f eq_refl).
           split; [reflexivity|]. split; [intros [H | H]; discriminate H|].
           right. right. exists organisation. eexists.
           do 5 (split; [eassumption || reflexivity|]).
           split; [right; split; [exact Hempty|]; split; [exact Hdelivers | reflexivity]|].
           left. split; reflexivity.
      * cbn [fst snd]. split; [reflexivity|]. split; [reflexivity|].
        right. left. reflexivity.
Qed.

Lemma clashes_false (self : Users.Invite) (rows : list Users.Invite) :
  Users.invite_pk self = None ->
  Users.clashes self rows = false ->
  ~ In (Users.invite_hash self) (map Users.invite_hash rows) /\
  ~ In (Users.invite_email self, Users.invite_organisation self)
       (map (fun r => (Users.invite_email r, Users.invite_organisation r)) rows).
Proof.
  intros Hpk Hclash. unfold Users.clashes in Hclash. rewrite Hpk in Hclash.
  assert (Hrow : forall r, In r rows ->
                           Users.invite_hash r <> Users.invite_hash self /\
                           (Users.invite_email r, Users.invite_organisation r) <>
                           (Users.invite_email self, Users.invite_organisation self)).
  { intros r Hr.
    destruct (orb (String.eqb (Users.invite_hash r) (Users.invite_hash self))
                  (andb (String.eqb (Users.invite_email r) (Users.invite_email self))
                        (Users.invite_organisation r =? Users.invite_organisation self)))
      eqn:Hb.
    - exfalso. rewrite <- not_true_iff_false in Hclash. apply Hclash.
      apply existsb_exists. exists r. split; [exact Hr|].
      rewrite Hb. destruct (Users.invite_pk r); reflexivity.
    - apply orb_false_iff in Hb. destruct Hb as [Hh He]. split.
      + apply String.eqb_neq. exact Hh.
      + intros Heq. inversion Heq as [[H1 H2]].
        rewrite H1, H2, String.eqb_refl, Z.eqb_refl in He. discriminate He. }
  split; intros Hin; apply in_map_iff in Hin; destruct Hin as (r & Hk & Hr);
    destruct (Hrow r Hr) as [Hh He]; [exact (Hh Hk) | exact (He Hk)].
Qed.

(** What [Model.save] makes of the rows for an invite without primary key. *)
Lemma Model_save_new (self : Users.Invite) (rows rows' : list Users.Invite) :
  Users.invite_pk self = None ->
  Users.Model_save self rows = Users.Ok rows' ->
  Users.clashes self rows = false /\
  exists pk,
    rows' = rows ++
            [Users.mkInvite (Some pk) (Users.invite_email self) (Users.invite_hash self)
                            (Users.invite_organisation self)
                            (Users.invite_frontend_base_url self)].
Proof.
  intros Hpk. unfold Users.Model_save.
  destruct (Users.clashes self rows); [discriminate|].
  rewrite Hpk. intros H. inversion H. split; [reflexivity|]. eexists. reflexivity.
Qed.

Lemma save_new_keeps_unique (self : Users.Invite) (w : Users.World) :
  Users.invite_pk self = None ->
  Users.unique_invites w ->
  Users.unique_invites (fst (Users.save render delivers self w)).
Proof.
  intros Hpk [Hhash Hpair]. unfold Users.unique_invites.
  destruct (save_rows self w) as [[_ ->] | (_ & _ & Hsave)]; [split; assumption|].
  destruct (Model_save_new self _ _ Hpk Hsave) as [Hclash [pk ->]].
  destruct (clashes_false self (Users.invites w) Hpk Hclash) as [Hh He].
  rewrite !map_app. split; apply NoDup_snoc; assumption.
Qed.

(** The rows after a new invite was saved. *)
Lemma save_new_rows (self : Users.Invite) (w : Users.World) :
  Users.invite_pk self = None ->
  snd (Users.save render delivers self w) = Users.Ok tt ->
  exists pk,
    Users.invites (fst (Users.save render delivers self w)) =
    Users.invites w ++
    [Users.mkInvite (Some pk) (Users.invite_email self) (Users.invite_hash self)
                    (Users.invite_organisation self)
                    (Users.invite_frontend_base_url self)] /\
    Users.organisations (fst (Users.save render delivers self w)) =
    Users.organisations w.
Proof.
  intros Hpk Hok.
  destruct (save_rows self w) as [[Hnot _] | (_ & Horg & Hsave)]; [contradiction|].
  destruct (Model_save_new self _ _ Hpk Hsave) as [_ [pk Hrows]].
  exists pk. split; [exact Hrows | exact Horg].
Qed.

(** X15. Invites stay unique, and an address is invited to an organisation
    once: saving new invites, in any number, keeps the hash and the pair of
    email and organisation unique among the rows; and after an invite was
    saved, a new invite of the same email to the same organisation is never
    saved, and leaves the rows as they are. *)
Theorem invites_stay_unique (w : Users.World) (new : list Users.Invite) :
  Users.unique_invites w ->
  (forall self, In self new -> Users.invite_pk self = None) ->
  Users.unique_invites
    (fold_left (fun w self => fst (Users.save render delivers self w)) new w)
  /\
  (forall first second,
      Users.invite_pk first = None -> Users.invite_pk second = None ->
      Users.invite_email second = Users.invite_email first ->
      Users.invite_organisation second = Users.invite_organisation first ->
      snd (Users.save render delivers first w) = Users.Ok tt ->
      snd (Users.save render delivers second
                      (fst (Users.save render delivers first w))) <> Users.Ok tt /\
      Users.invites (fst (Users.save render delivers second
                                     (fst (Users.save render delivers first w)))) =
      Users.invites (fst (Users.save render delivers first w))).
Proof.
  intros Hu Hnew. split.
  - revert w Hu. induction new as [|self new IH]; intros w Hu; [exact Hu|].
    cbn [fold_left]. apply IH.
    + intros s Hs. apply Hnew. right. exact Hs.
    + apply save_new_keeps_unique; [apply Hnew; left; reflexivity | exact Hu].
  - intros first second Hp1 Hp2 Hemail Horg Hok.
    destruct (save_new_rows first w Hp1 Hok) as (pk & Hrows & _).
    set (w1 := fst (Users.save render delivers first w)) in *.
    assert (Hclash : Users.clashes second (Users.invites w1) = true).
    { unfold Users.clashes. rewrite Hrows, existsb_app. apply orb_true_iff. right.
      cbn [existsb Users.invite_pk Users.invite_hash Users.invite_email
           Users.invite_organisation].
      rewrite Hp2, Hemail, Horg, String.eqb_refl, Z.eqb_refl.
      cbn [Users.option_Z_same negb andb orb].
      rewrite orb_true_r. reflexivity. }
    destruct (save_rows second w1) as [Hrefused | (_ & _ & Hsave)]; [exact Hrefused|].
    unfold Users.Model_save in Hsave. rewrite Hclash in Hsave. discriminate Hsave.
Qed.

End InviteFacts.

Lemma invites_stay_unique_witness :
  Users.unique_invites
    (fold_left (fun w self => fst (Users.save (fun name _ => name) (fun _ => true) self w))
               [Users.mkInvite None "ann@example.com" "h1" 1 "https://app/invite/";
                Users.mkInvite None "ann@example.com" "h2" 1 "https://app/invite/"]
               (Users.mkWorld [Users.mkOrganisation 1 "Acme"] [] []))
  /\
  snd (Users.save (fun name _ => name) (fun _ => true)
         (Users.mkInvite None "ann@example.com" "h2" 1 "https://app/invite/")
         (fst (Users.save (fun name _ => name) (fun _ => true)
                 (Users.mkInvite None "ann@example.com" "h1" 1 "https://app/invite/")
                 (Users.mkWorld [Users.mkOrganisation 1 "Acme"] [] [])))) <> Users.Ok tt.
Proof.
  assert (Hu : Users.unique_invites (Users.mkWorld [Users.mkOrganisation 1 "Acme"] [] []))
    by (split; constructor).
  destruct (invites_stay_unique
              (fun name _ => name) (fun _ => true)
              (Users.mkWorld [Users.mkOrganisation 1 "Acme"] [] [])
              [Users.mkInvite None "ann@example.com" "h1" 1 "https://app/invite/";
               Users.mkInvite None "ann@example.com" "h2" 1 "https://app/invite/"]
              Hu)
    as [Hunique Htwice].
  - intros self [<- | [<- | []]]; reflexivity.
  - split; [exact Hunique|].
    apply (Htwice (Users.mkInvite None "ann@example.com" "h1" 1 "https://app/invite/")
                  (Users.mkInvite None "ann@example.com" "h2" 1 "https://app/invite/"));
      reflexivity.
Defined.

(** An invite without an address, on a backend that takes every mail: no
    mail is handed over, and the row is written. *)
Lemma invite_without_address_is_saved_unsent :
  Users.save (fun name _ => name) (fun _ => true)
             (Users.mkInvite None "" "h1" 1 "https://app/invite/")
             (Users.mkWorld [Users.mkOrganisation 1 "Acme"] [] []) =
  (Users.mkWorld [Users.mkOrganisation 1 "Acme"]
                 [Users.mkInvite (Some 1) "" "h1" 1 "https://app/invite/"] [],
   Users.Ok tt).
Proof. reflexivity. Qed.
